(** * Parameter Store helper of the ECS stack: secrets map and IAM statements

    A shallow embedding of [lib/utils/parameter-store-helper.ts]:
    - [createParameterStoreSecret], [createSecretsMap],
    - [createParameterStorePolicy], [createKmsDecryptPolicy],
    - the table [DEFAULT_PARAMETERS],
    and, further down, of what the stacks, the program that creates them
    and the two Parameter Store scripts compute around the helper.

    Modelling choices.
    - A JavaScript string is a [string]; the only character the code looks
      for is the separator ["/"] (one code unit, one byte), so searching
      bytes and searching code units agree.
    - The object [secretsMap] (type [{ [key: string]: ecs.Secret }]) is a
      [gmap string Secret]: [secretsMap[k] = v] is [<[k:=v]>].  Keys are
      taken to be ordinary property names; the assignment to the key
      [__proto__], which in JavaScript sets the prototype of the object and
      adds no property, is not modelled.
    - The toolkit calls ([ssm.StringParameter.fromStringParameterAttributes],
      [ecs.Secret.fromSsmParameter]) belong to aws-cdk-lib, not to this
      repository.  They are Section variables: they may read and change the
      construct tree and may throw.
    - Exceptions, the construct tree and the console are threaded through a
      small state-and-exception monad in which, as in JavaScript, the state
      reached before a [throw] is kept by the enclosing [catch]. *)

From Stdlib Require Import String Ascii List Bool.
From stdpp Require Import base option list gmap strings fin_maps pretty.
Import ListNotations.

(** ** Strings *)

Module Str.

(** [hay.startsWith(needle)]. *)
Fixpoint startsWith (hay needle : string) {struct needle} : bool :=
  match needle, hay with
  | EmptyString, _ => true
  | String _ _, EmptyString => false
  | String a needle', String b hay' => Ascii.eqb a b && startsWith hay' needle'
  end.

(** [hay.includes(needle)]: [needle] occurs at some position of [hay]. *)
Fixpoint includes (hay needle : string) : bool :=
  startsWith hay needle
  || match hay with
     | EmptyString => false
     | String _ hay' => includes hay' needle
     end.

(** [hay] contains [needle] somewhere. *)
Definition contains (hay needle : string) : Prop :=
  exists pre post, hay = pre +:+ needle +:+ post.

End Str.

(** ** Data model *)

(** [type?: "String" | "SecureString"]. *)
Inductive ParameterType : Type :=
| TString
| TSecureString.

(** [interface ParameterSecret]; an optional field left out is [None]. *)
Record ParameterSecret : Type := mkParameterSecret {
  environmentVariable : string;
  parameterPath : string;
  type : option ParameterType;
  required : option bool;
}.

(** [param.required !== false]: true for [undefined] and for [true]. *)
Definition required_is_not_false (param : ParameterSecret) : bool :=
  match required param with
  | Some false => false
  | _ => true
  end.

(** The [const parameterPath] computed at the top of the loop body of
    [createSecretsMap]:
    [param.parameterPath.includes("/") ? param.parameterPath
       : `/eduka3d/${environment}/${param.parameterPath}`]. *)
Definition resolvedParameterPath (environment : string) (param : ParameterSecret) : string :=
  if Str.includes (parameterPath param) "/"
  then parameterPath param
  else "/eduka3d/" +:+ environment +:+ "/" +:+ parameterPath param.

(** The message of the [console.warn] call in the [catch] block. *)
Definition warningMessage (param : ParameterSecret) (path : string) : string :=
  "Warning: Could not create secret for " +:+ environmentVariable param
    +:+ " at " +:+ path.

(** ** Effects: construct tree, console, exceptions *)

(** How a JavaScript call completes: normally with a value, or by [throw]. *)
Inductive Completion (Exn A : Type) : Type :=
| Normal (a : A)
| Throw (e : Exn).
Arguments Normal {Exn A} a.
Arguments Throw {Exn A} e.

(** What a call can change: the construct tree handed to the helper as
    [construct], and the lines written with [console.warn]. *)
Record World (Construct : Type) : Type := mkWorld {
  scope : Construct;
  console : list string;
}.
Arguments mkWorld {Construct} scope console.
Arguments scope {Construct} w.
Arguments console {Construct} w.

Definition M (Construct Exn A : Type) : Type :=
  World Construct -> World Construct * Completion Exn A.

Section Monad.
Context {Construct Exn : Type}.
Local Abbreviation M := (M Construct Exn).

Definition ret {A} (a : A) : M A := fun w => (w, Normal a).

(** Sequencing: a [throw] skips what follows and keeps the state. *)
Definition bind {A B} (c : M A) (k : A -> M B) : M B :=
  fun w =>
    match c w with
    | (w', Normal a) => k a w'
    | (w', Throw e) => (w', Throw e)
    end.

Definition throw {A} (e : Exn) : M A := fun w => (w, Throw e).

(** [try { body } catch (error) { handler }]: every thrown value is
    caught, and the handler starts in the state the body had reached. *)
Definition tryCatch {A} (body : M A) (handler : Exn -> M A) : M A :=
  fun w =>
    match body w with
    | (w', Normal a) => (w', Normal a)
    | (w', Throw e) => handler e w'
    end.

(** [console.warn(msg)]. *)
Definition consoleWarn (msg : string) : M unit :=
  fun w => (mkWorld (scope w) (console w ++ [msg]), Normal tt).

(** A toolkit call working on the construct tree. *)
Definition onScope {A} (f : Construct -> Construct * Completion Exn A) : M A :=
  fun w => let '(c, r) := f (scope w) in (mkWorld c (console w), r).

(** A toolkit call that touches no state. *)
Definition ofCompletion {A} (r : Completion Exn A) : M A := fun w => (w, r).

(** [for (const x of xs) { ... }] over a local variable [acc] that the
    body may reassign. *)
Fixpoint forOf {A S} (xs : list A) (body : A -> S -> M S) (acc : S) : M S :=
  match xs with
  | [] => ret acc
  | x :: xs' => bind (body x acc) (forOf xs' body)
  end.

End Monad.

Declare Scope js_scope.
Delimit Scope js_scope with js.
Notation "x <- c ;; k" := (bind c (fun x => k))
  (at level 100, c at next level, right associativity) : js_scope.
Notation "c ;;; k" := (bind c (fun _ => k))
  (at level 100, right associativity) : js_scope.

(** ** The helper functions *)

Section Helper.
Context {Construct Exn StringParameter Secret : Type}.

(** [ssm.StringParameter.fromStringParameterAttributes(construct,
    logicalId, { parameterName })] of aws-cdk-lib. *)
Variable fromStringParameterAttributes :
  Construct -> string -> string -> Construct * Completion Exn StringParameter.

(** [ecs.Secret.fromSsmParameter(param)] of aws-cdk-lib. *)
Variable fromSsmParameter : StringParameter -> Completion Exn Secret.

Local Abbreviation M := (M Construct Exn).
Local Open Scope js_scope.

(** [createParameterStoreSecret(construct, logicalId, parameterPath)];
    the argument [construct] is the [scope] of the world. *)
Definition createParameterStoreSecret (logicalId parameterPath : string) : M Secret :=
  param <- onScope (fun construct =>
             fromStringParameterAttributes construct logicalId parameterPath) ;;
  ofCompletion (fromSsmParameter param).

(** The body of the [for] loop of [createSecretsMap]. *)
Definition createSecretsMap_body (environment : string)
    (param : ParameterSecret) (secretsMap : gmap string Secret) : M (gmap string Secret) :=
  let parameterPath := resolvedParameterPath environment param in
  tryCatch
    (secret <- createParameterStoreSecret (environmentVariable param) parameterPath ;;
     ret (<[environmentVariable param := secret]> secretsMap))
    (fun error =>
       (if required_is_not_false param
        then consoleWarn (warningMessage param parameterPath)
        else ret tt) ;;;
       ret secretsMap).

(** [createSecretsMap(construct, environment, parameters)]. *)
Definition createSecretsMap (environment : string)
    (parameters : list ParameterSecret) : M (gmap string Secret) :=
  forOf parameters (createSecretsMap_body environment) ∅.

End Helper.

(** ** IAM policy statements *)

(** [iam.Effect]. *)
Inductive Effect : Type :=
| ALLOW
| DENY.

(** The properties handed to [new iam.PolicyStatement({...})]. *)
Record PolicyStatement : Type := mkPolicyStatement {
  actions : list string;
  resources : list string;
  effect : Effect;
}.

(** [createParameterStorePolicy(environment, region, accountId)]. *)
Definition createParameterStorePolicy (environment region accountId : string) : PolicyStatement :=
  {| actions := ["ssm:GetParameter"; "ssm:GetParameters"; "ssm:GetParametersByPath"];
     resources :=
       ["arn:aws:ssm:" +:+ region +:+ ":" +:+ accountId
          +:+ ":parameter/eduka3d/" +:+ environment +:+ "/*"];
     effect := ALLOW |}.

(** [createKmsDecryptPolicy()]. *)
Definition createKmsDecryptPolicy (_ : unit) : PolicyStatement :=
  {| actions := ["kms:Decrypt"; "kms:DescribeKey"];
     resources := ["*"];
     effect := ALLOW |}.

(** ** The configuration table *)

(** [DEFAULT_PARAMETERS]; the PayPal entries are commented out in the
    source and are not part of the array. *)
Definition DEFAULT_PARAMETERS : list ParameterSecret := [
  {| environmentVariable := "DJANGO_SECRET_KEY";
     parameterPath := "DJANGO_SECRET_KEY";
     type := Some TSecureString;
     required := Some true |};
  {| environmentVariable := "DJANGO_ALLOWED_HOSTS";
     parameterPath := "DJANGO_ALLOWED_HOSTS";
     type := Some TString;
     required := None |};
  {| environmentVariable := "DJANGO_CSRF_TRUSTED_ORIGINS";
     parameterPath := "DJANGO_CSRF_TRUSTED_ORIGINS";
     type := Some TString;
     required := None |};
  {| environmentVariable := "DATABASE_NAME";
     parameterPath := "DATABASE_NAME";
     type := Some TString;
     required := Some true |};
  {| environmentVariable := "DATABASE_USER";
     parameterPath := "DATABASE_USER";
     type := Some TString;
     required := Some true |};
  {| environmentVariable := "DATABASE_HOST";
     parameterPath := "DATABASE_HOST";
     type := Some TString;
     required := Some true |};
  {| environmentVariable := "DATABASE_PORT";
     parameterPath := "DATABASE_PORT";
     type := Some TString;
     required := Some true |};
  {| environmentVariable := "EMAIL_HOST";
     parameterPath := "EMAIL_HOST";
     type := Some TString;
     required := None |};
  {| environmentVariable := "EMAIL_PORT";
     parameterPath := "EMAIL_PORT";
     type := Some TString;
     required := None |};
  {| environmentVariable := "EMAIL_HOST_USER";
     parameterPath := "EMAIL_HOST_USER";
     type := Some TString;
     required := None |};
  {| environmentVariable := "EMAIL_HOST_PASSWORD";
     parameterPath := "EMAIL_HOST_PASSWORD";
     type := Some TSecureString;
     required := None |};
  {| environmentVariable := "EMAIL_USE_TLS";
     parameterPath := "EMAIL_USE_TLS";
     type := Some TString;
     required := None |};
  {| environmentVariable := "DEFAULT_FROM_EMAIL";
     parameterPath := "DEFAULT_FROM_EMAIL";
     type := Some TString;
     required := None |};
  {| environmentVariable := "RECAPTCHA_PUBLIC_KEY";
     parameterPath := "RECAPTCHA_PUBLIC_KEY";
     type := Some TString;
     required := None |};
  {| environmentVariable := "RECAPTCHA_PRIVATE_KEY";
     parameterPath := "RECAPTCHA_PRIVATE_KEY";
     type := Some TSecureString;
     required := None |};
  {| environmentVariable := "STRIPE_PUBLISHABLE_KEY";
     parameterPath := "STRIPE_PUBLISHABLE_KEY";
     type := Some TString;
     required := None |};
  {| environmentVariable := "STRIPE_SECRET_KEY";
     parameterPath := "STRIPE_SECRET_KEY";
     type := Some TSecureString;
     required := None |}
].

(** ** The consumer of the statements: IAM resource matching

    The statement built by [createParameterStorePolicy] is evaluated by IAM,
    outside this repository.  What the invariant on resolved paths relies on
    is modelled here: the ARN of a parameter, and the matching of a resource
    pattern, in which [*] stands for any run of characters and [?] for any
    single character. *)

Module Iam.

(** The ARN of the parameter called [name]: a name that starts with the
    separator is appended to [parameter] as it is, a bare name after a
    separator. *)
Definition parameterArn (region accountId name : string) : string :=
  "arn:aws:ssm:" +:+ region +:+ ":" +:+ accountId +:+ ":parameter"
    +:+ (if Str.startsWith name "/" then name else "/" +:+ name).

(** [f] accepts [s] or what is left of [s] after some of its first
    characters. *)
Fixpoint anySuffix (f : string -> bool) (s : string) : bool :=
  f s
  || match s with
     | EmptyString => false
     | String _ s' => anySuffix f s'
     end.

Fixpoint wildcardMatch (pattern s : string) {struct pattern} : bool :=
  match pattern with
  | EmptyString =>
      match s with
      | EmptyString => true
      | String _ _ => false
      end
  | String c pattern' =>
      if Ascii.eqb c "*" then anySuffix (wildcardMatch pattern') s
      else
        match s with
        | EmptyString => false
        | String d s' =>
            (Ascii.eqb c "?" || Ascii.eqb c d) && wildcardMatch pattern' s'
        end
  end.

(** Some resource pattern of the statement matches [arn]. *)
Definition resourceMatches (statement : PolicyStatement) (arn : string) : bool :=
  existsb (fun pattern => wildcardMatch pattern arn) (resources statement).

End Iam.

(** ** Two spec lists that differ at most in the [type] fields *)

Definition sameExceptType (p q : ParameterSecret) : Prop :=
  environmentVariable p = environmentVariable q
  /\ parameterPath p = parameterPath q
  /\ required p = required q.

(** ** Recording the toolkit calls

    A toolkit wrapped so that every call of
    [fromStringParameterAttributes] is written down, with its logical id and
    its parameter name, before it is passed on. *)

Definition recording {Construct Exn StringParameter : Type}
    (fromStringParameterAttributes :
       Construct -> string -> string -> Construct * Completion Exn StringParameter)
    (construct : Construct * list (string * string))
    (logicalId parameterName : string)
  : (Construct * list (string * string)) * Completion Exn StringParameter :=
  let '(c, r) := fromStringParameterAttributes construct.1 logicalId parameterName in
  ((c, construct.2 ++ [(logicalId, parameterName)]), r).

(** ** What the loop does to the world, spec by spec *)

(** The world after the [catch] block of [param], entered in [w]. *)
Definition afterCatch {Construct : Type} (environment : string) (param : ParameterSecret)
    (w : World Construct) : World Construct :=
  if required_is_not_false param
  then mkWorld (scope w)
         (console w ++ [warningMessage param (resolvedParameterPath environment param)])
  else w.

(** The calls of [createParameterStoreSecret] that the loop makes, one per
    spec and in the order of the specs: the logical id is the spec's
    variable and the parameter name its resolved path. *)
Definition callsOf (environment : string) (parameters : list ParameterSecret)
  : list (string * string) :=
  map (fun param =>
         (environmentVariable param, resolvedParameterPath environment param))
      parameters.

(** ** A small toolkit to run the helper on *)

Module Sample.

(** Failures of the parameter store. *)
Inductive StorageError : Type :=
| ParameterNotFound
| AccessDenied
| ValidationException
| ThrottlingException.

(** An imported parameter: the logical id it was given and its name. *)
Record ImportedParameter : Type := mkImported {
  logicalId : string;
  parameterName : string;
}.

(** A container secret that points to an imported parameter. *)
Inductive SsmSecret : Type :=
| FromSsmParameter (param : ImportedParameter).

(** The construct tree: the parameters imported so far, oldest first. *)
Definition Tree : Type := list ImportedParameter.

(** Importing fails with [e] when [failure] says so for the name, and
    otherwise adds the parameter to the tree. *)
Definition fromStringParameterAttributes (failure : string -> option StorageError)
    (construct : Tree) (logicalId parameterName : string)
  : Tree * Completion StorageError ImportedParameter :=
  match failure parameterName with
  | Some e => (construct, Throw e)
  | None =>
      let param := mkImported logicalId parameterName in
      (construct ++ [param], Normal param)
  end.

Definition fromSsmParameter (param : ImportedParameter)
  : Completion StorageError SsmSecret :=
  Normal (FromSsmParameter param).

(** No parameter is missing. *)
Definition allPresent (_ : string) : option StorageError := None.

(** Exactly the parameter called [name] fails, with [e]. *)
Definition failsAt (name : string) (e : StorageError) (parameterName : string)
  : option StorageError :=
  if String.eqb parameterName name then Some e else None.

(** [createSecretsMap] on this toolkit. *)
Definition run (failure : string -> option StorageError) (environment : string)
    (parameters : list ParameterSecret) (w : World Tree)
  : World Tree * Completion StorageError (gmap string SsmSecret) :=
  createSecretsMap (fromStringParameterAttributes failure) fromSsmParameter
    environment parameters w.

Definition start : World Tree := mkWorld [] [].

Definition spec (variable path : string) (req : option bool) : ParameterSecret :=
  {| environmentVariable := variable;
     parameterPath := path;
     type := None;
     required := req |}.

End Sample.

(** * The stacks that use the helper

    The stacks are classes whose constructors hand property objects to the
    toolkit.  What is embedded here is what the constructors compute from
    their props: names, switches on the environment, the parameters they
    write and the secrets they ask for.  Fields that are constants of no
    consequence below, and the constructs the toolkit builds from the
    objects, are left out. *)

(** ** Two JavaScript operators *)

(** [x ?? d]: [d] stands in for [undefined] only. *)
Definition nullish {A : Type} (x : option A) (d : A) : A :=
  match x with
  | Some v => v
  | None => d
  end.

(** [x || d] on a string that may be [undefined]: [d] stands in for
    [undefined] and for the empty string. *)
Definition orString (x : option string) (d : string) : string :=
  match x with
  | Some (String c s) => String c s
  | Some EmptyString => d
  | None => d
  end.

(** [cdk.RemovalPolicy], as far as the stacks use it. *)
Inductive RemovalPolicy : Type :=
| DESTROY
| RETAIN
| SNAPSHOT.

(** [new cdk.CfnOutput(this, id, { value, exportName })]. *)
Record CfnOutput : Type := mkCfnOutput {
  outputId : string;
  value : string;
  exportName : option string;
}.

(** The export names of a list of outputs. *)
Definition exportNames (outputs : list CfnOutput) : list string :=
  omap exportName outputs.

(** ** [AuroraStack] (lib/aurora-stack.ts) *)

Module AuroraStack.

(** [new ssm.StringParameter(this, id, { parameterName, stringValue })]. *)
Record StringParameter : Type := mkStringParameter {
  id : string;
  parameterName : string;
  stringValue : string;
}.

(** The properties of the [rds.DatabaseCluster] that depend on the props. *)
Record DatabaseCluster (Number : Type) : Type := mkDatabaseCluster {
  enablePerformanceInsights : bool;
  storageEncrypted : bool;
  defaultDatabaseName : string;
  credentialsUsername : string;
  clusterIdentifier : string;
  backupRetention : Number;
  removalPolicy : RemovalPolicy;
  deletionProtection : bool;
}.
Arguments mkDatabaseCluster {Number}.
Arguments enablePerformanceInsights {Number} d.
Arguments storageEncrypted {Number} d.
Arguments defaultDatabaseName {Number} d.
Arguments credentialsUsername {Number} d.
Arguments clusterIdentifier {Number} d.
Arguments backupRetention {Number} d.
Arguments removalPolicy {Number} d.
Arguments deletionProtection {Number} d.

(** [interface AuroraStackProps], without [vpc] and the stack props. *)
Record Props (Number : Type) : Type := mkProps {
  environment : string;
  databaseName : option string;
  databaseUsername : option string;
  backupRetentionDays : option Number;
}.
Arguments mkProps {Number}.
Arguments environment {Number} p.
Arguments databaseName {Number} p.
Arguments databaseUsername {Number} p.
Arguments backupRetentionDays {Number} p.

Section Stack.
Context {Number : Type}.

(** The number a numeric literal of the source stands for. *)
Variable literal : Z -> Number.

(** [const databaseName = props.databaseName || "eduka3ddb"]. *)
Definition theDatabaseName (props : Props Number) : string :=
  orString (databaseName props) "eduka3ddb".

(** [const databaseUsername = props.databaseUsername || "admin"]. *)
Definition theDatabaseUsername (props : Props Number) : string :=
  orString (databaseUsername props) "admin".

(** [const backupRetention =
       props.backupRetentionDays ?? (env === "prod" ? 30 : 7)]. *)
Definition backupRetentionOf (props : Props Number) : Number :=
  nullish (backupRetentionDays props)
    (if String.eqb (environment props) "prod" then literal 30 else literal 7).

(** [securityGroupName] of the security group. *)
Definition securityGroupName (props : Props Number) : string :=
  "eduka3d-" +:+ environment props +:+ "-aurora-sg".

(** The props of [new rds.DatabaseCluster(this, "AuroraV2Cluster", ...)]. *)
Definition cluster (props : Props Number) : DatabaseCluster Number :=
  let env := environment props in
  {| enablePerformanceInsights := if String.eqb env "prod" then true else false;
     storageEncrypted := if String.eqb env "prod" then true else false;
     defaultDatabaseName := theDatabaseName props;
     credentialsUsername := theDatabaseUsername props;
     clusterIdentifier := "eduka3d-" +:+ env +:+ "-aurora-cluster";
     backupRetention := backupRetentionOf props;
     removalPolicy := if String.eqb env "prod" then SNAPSHOT else DESTROY;
     deletionProtection := if String.eqb env "prod" then true else false |}.

(** The four parameters written to Parameter Store; [hostname] is
    [this.cluster.clusterEndpoint.hostname]. *)
Definition parameters (props : Props Number) (hostname : string) : list StringParameter :=
  let env := environment props in
  [ {| id := "DatabaseEndpointParameter";
       parameterName := "/eduka3d/" +:+ env +:+ "/DATABASE_HOST";
       stringValue := hostname |};
    {| id := "DatabasePortParameter";
       parameterName := "/eduka3d/" +:+ env +:+ "/DATABASE_PORT";
       stringValue := "3306" |};
    {| id := "DatabaseNameParameter";
       parameterName := "/eduka3d/" +:+ env +:+ "/DATABASE_NAME";
       stringValue := theDatabaseName props |};
    {| id := "DatabaseUserParameter";
       parameterName := "/eduka3d/" +:+ env +:+ "/DATABASE_USER";
       stringValue := theDatabaseUsername props |} ].

(** The six outputs; [secretArn] is [this.secret.secretArn] and
    [securityGroupId] is [auroraSecurityGroup.securityGroupId]. *)
Definition outputs (props : Props Number)
    (hostname secretArn securityGroupId : string) : list CfnOutput :=
  let env := environment props in
  [ {| outputId := "ClusterEndpoint"; value := hostname;
       exportName := Some ("eduka3d-" +:+ env +:+ "-aurora-endpoint") |};
    {| outputId := "ClusterPort"; value := "3306";
       exportName := Some ("eduka3d-" +:+ env +:+ "-aurora-port") |};
    {| outputId := "DatabaseName"; value := theDatabaseName props;
       exportName := Some ("eduka3d-" +:+ env +:+ "-db-name") |};
    {| outputId := "DatabaseUser"; value := theDatabaseUsername props;
       exportName := Some ("eduka3d-" +:+ env +:+ "-db-user") |};
    {| outputId := "DatabaseSecretArn"; value := secretArn;
       exportName := Some ("eduka3d-" +:+ env +:+ "-db-secret-arn") |};
    {| outputId := "SecurityGroupId"; value := securityGroupId;
       exportName := Some ("eduka3d-" +:+ env +:+ "-aurora-sg") |} ].

End Stack.

End AuroraStack.

(** ** [S3Stack] (lib/s3-stack.ts) *)

Module S3Stack.

(** The properties of the [s3.Bucket] that depend on the environment. *)
Record Bucket : Type := mkBucket {
  bucketName : string;
  removalPolicy : RemovalPolicy;
  autoDeleteObjects : bool;
}.

(** The props of [new s3.Bucket(this, "eduka3d-bucket", ...)]. *)
Definition bucket (env : string) : Bucket :=
  {| bucketName := "eduka3d-" +:+ env +:+ "-bucket";
     removalPolicy := if String.eqb env "prod" then RETAIN else DESTROY;
     autoDeleteObjects := if String.eqb env "prod" then false else true |}.

(** The id under which the distribution is added to the stack. *)
Definition distributionId (env : string) : string :=
  "eduka3d-" +:+ env +:+ "-distribution".

(** The ids of the constructs the constructor adds to the stack, in the
    order it adds them. *)
Definition constructIds (env : string) : list string :=
  ["eduka3d-bucket"; distributionId env; "BucketName"; "DistributionDomainName"].

(** The two outputs; the values are the bucket name and the domain name of
    the distribution as the toolkit gives them. *)
Definition outputs (env bucketNameToken domainName : string) : list CfnOutput :=
  [ {| outputId := "BucketName"; value := bucketNameToken;
       exportName := Some (env +:+ "-BucketName") |};
    {| outputId := "DistributionDomainName"; value := domainName;
       exportName := Some (env +:+ "-DistributionDomainName") |} ].

End S3Stack.

(** ** [EcsStack] (lib/ecs-stack.ts) *)

Module EcsStack.

(** [interface EcsFargateStackProps], without [vpc] and the stack props. *)
Record Props (DbSecret : Type) : Type := mkProps {
  environment : string;
  bucketName : string;
  cdnDomainName : string;
  ecrRepositoryName : string;
  acmCertificateArn : string;
  dbSecret : DbSecret;
  parameterStorePath : option string;
}.
Arguments mkProps {DbSecret}.
Arguments environment {DbSecret} p.
Arguments bucketName {DbSecret} p.
Arguments cdnDomainName {DbSecret} p.
Arguments ecrRepositoryName {DbSecret} p.
Arguments acmCertificateArn {DbSecret} p.
Arguments dbSecret {DbSecret} p.
Arguments parameterStorePath {DbSecret} p.


(** The [environment] object of the container; [region] is [this.region]. *)
Definition containerEnvironment {DbSecret : Type} (props : Props DbSecret)
    (region : string) : list (string * string) :=
  [ ("DEBUG", if String.eqb (environment props) "prod" then "False" else "True");
    ("DJANGO_USE_S3", "True");
    ("DATABASE_ENGINE", "django.db.backends.mysql");
    ("AWS_STORAGE_BUCKET_NAME", bucketName props);
    ("AWS_S3_REGION_NAME", region);
    ("AWS_S3_CUSTOM_DOMAIN", cdnDomainName props) ].

Section Stack.
Context {Construct Exn StringParameter Secret DbSecret : Type}.
Variable fromStringParameterAttributes :
  Construct -> string -> string -> Construct * Completion Exn StringParameter.
Variable fromSsmParameter : StringParameter -> Completion Exn Secret.

(** [ecs.Secret.fromSecretsManager(secret, field)] of aws-cdk-lib. *)
Variable fromSecretsManager : DbSecret -> string -> Completion Exn Secret.

Local Open Scope js_scope.

(** The [secrets] object of the container:
    [const secretsMap = createSecretsMap(this, env, DEFAULT_PARAMETERS);
     secretsMap["DATABASE_PASSWORD"] =
       ecs.Secret.fromSecretsManager(props.dbSecret, "password")]. *)
Definition secretsMap (props : Props DbSecret) : M Construct Exn (gmap string Secret) :=
  secretsMap <- createSecretsMap fromStringParameterAttributes fromSsmParameter
                  (environment props) DEFAULT_PARAMETERS ;;
  secret <- ofCompletion (fromSecretsManager (dbSecret props) "password") ;;
  ret (<["DATABASE_PASSWORD" := secret]> secretsMap).

End Stack.

End EcsStack.

(** ** The program that creates the stacks (bin/infra.ts)

    [process.env], after [dotenv.config()], is a map from names to strings;
    a variable that is not set is a missing key. *)

Module App.

Section App.
Context {Number DbSecret : Type}.

(** [parseInt(s)] of JavaScript. *)
Variable parseInt : string -> Number.

(** [const environment = process.env.ENV ?? "dev"]. *)
Definition environment (processEnv : gmap string string) : string :=
  nullish (processEnv !! "ENV") "dev".

(** The props of [new AuroraStack(app, "AuroraStack", ...)]. *)
Definition auroraProps (processEnv : gmap string string) : AuroraStack.Props Number :=
  {| AuroraStack.environment := environment processEnv;
     AuroraStack.databaseName :=
       Some (nullish (processEnv !! "DATABASE_NAME") "eduka3ddb");
     AuroraStack.databaseUsername :=
       Some (nullish (processEnv !! "DATABASE_USERNAME") "admin");
     AuroraStack.backupRetentionDays :=
       Some (parseInt (nullish (processEnv !! "BACKUP_RETENTION_DAYS") "7")) |}.

(** The props of [new EcsStack(app, "EcsStack", ...)]; the bucket name, the
    domain name and the database secret come from the other stacks. *)
Definition ecsProps (processEnv : gmap string string)
    (bucketName cdnDomainName : string) (dbSecret : DbSecret) : EcsStack.Props DbSecret :=
  {| EcsStack.environment := environment processEnv;
     EcsStack.bucketName := bucketName;
     EcsStack.cdnDomainName := cdnDomainName;
     EcsStack.ecrRepositoryName := nullish (processEnv !! "ECR_REPOSITORY_NAME") "eduka3d";
     EcsStack.acmCertificateArn := nullish (processEnv !! "ACM_CERTIFICATE_ARN") "";
     EcsStack.dbSecret := dbSecret;
     EcsStack.parameterStorePath := Some ("/eduka3d/" +:+ environment processEnv) |}.

End App.

End App.

(** ** The constructs under the S3 stack

    The ids of the constructs of the S3 stack once the program has also
    looked the VPC up under it:
    [ec2.Vpc.fromLookup(s3Stack, "ExistingVPC", ...)]. *)
Definition s3ScopeIds (env : string) : list string :=
  S3Stack.constructIds env ++ ["ExistingVPC"].

(** ** [VpcStack] (lib/vpc-stack.ts): the tags of the subnets *)

Module VpcStack.

(** The three tags the constructor adds to a construct. *)
Record Tags : Type := mkTags {
  Name : string;
  Environment : string;
  Project : string;
}.

(** The tags of the VPC itself. *)
Definition vpcTags (env : string) : Tags :=
  {| Name := "eduka3d-" +:+ env +:+ "-vpc"; Environment := env; Project := "eduka3d" |}.




End VpcStack.

(** ** The script that fills the Parameter Store
    (scripts/setup-parameter-store.sh) *)

Module SetupScript.

(** [${line%%=*}]: [line] without its longest tail that starts with [=];
    the whole line when it has no [=]. *)
Fixpoint beforeEquals (line : string) : string :=
  match line with
  | EmptyString => EmptyString
  | String c rest =>
      if Ascii.eqb c "=" then EmptyString else String c (beforeEquals rest)
  end.

(** What follows the first [=] of [line], if there is one. *)
Fixpoint afterFirstEquals (line : string) : option string :=
  match line with
  | EmptyString => None
  | String c rest => if Ascii.eqb c "=" then Some rest else afterFirstEquals rest
  end.

(** [${line#*=}]: [line] without its shortest head that ends with [=];
    the whole line when it has no [=]. *)
Definition afterEquals (line : string) : string :=
  match afterFirstEquals line with
  | Some value => value
  | None => line
  end.

(** [SECURE_PARAMS=("")]. *)
Definition SECURE_PARAMS : list string := [""].

(** [is_secure_param]: the parameter is one of [SECURE_PARAMS]. *)
Definition is_secure_param (param : string) : bool :=
  existsb (String.eqb param) SECURE_PARAMS.

(** What the loop does with a line of the env file. *)
Inductive Action : Type :=
| SkipLine
| SkipPlaceholder (key : string)
| PutParameter (name value type : string).

(** One turn of the [while read] loop.  [xargs] is what
    [$(echo "$key" | xargs)] gives for a key. *)
Definition processLine (xargs : string -> string) (ENVIRONMENT line : string) : Action :=
  if String.eqb line "" || Str.startsWith line "#" then SkipLine
  else
    let key := xargs (beforeEquals line) in
    let value := afterEquals line in
    if String.eqb value "" || Str.includes value "your-"
       || Str.includes value "YOUR_" || Str.includes value "example"
    then SkipPlaceholder key
    else
      PutParameter ("/eduka3d/" +:+ ENVIRONMENT +:+ "/" +:+ key) value
        (if is_secure_param key then "SecureString" else "String").

End SetupScript.

(** ** The script that checks the Parameter Store
    (scripts/validate-parameter-store.sh) *)

Module ValidateScript.

(** [check_parameter_type param_name expected_type]: the check passes when
    the type the store reports for [/eduka3d/<ENVIRONMENT>/<param_name>] is
    the expected one; [getType] is the answer of [aws ssm get-parameter],
    and a failed call counts as the type [NOT_FOUND]. *)
Definition check_parameter_type (getType : string -> option string)
    (ENVIRONMENT param_name expected_type : string) : bool :=
  let param_path := "/eduka3d/" +:+ ENVIRONMENT +:+ "/" +:+ param_name in
  let param_type :=
    match getType param_path with
    | Some type => type
    | None => "NOT_FOUND"
    end in
  String.eqb param_type expected_type.

End ValidateScript.

(** ** Patterns without wildcards *)

(** [s] has no wildcard character: as a pattern it stands for itself. *)
Fixpoint isLiteral (s : string) : bool :=
  match s with
  | EmptyString => true
  | String c rest =>
      negb (Ascii.eqb c "*") && negb (Ascii.eqb c "?") && isLiteral rest
  end.

(** ** A small toolkit with Secrets Manager, to run the ECS stack on *)

Module SampleEcs.

(** A container secret: from an imported parameter, or from a field of a
    Secrets Manager secret. *)
Inductive ContainerSecret : Type :=
| OfParameter (param : Sample.ImportedParameter)
| OfSecretsManager (secretName field : string).

Definition fromSsmParameter (param : Sample.ImportedParameter)
  : Completion Sample.StorageError ContainerSecret :=
  Normal (OfParameter param).

(** The reference to a field of the secret called [secretName]; the
    secret without name cannot be referred to. *)
Definition fromSecretsManager (secretName field : string)
  : Completion Sample.StorageError ContainerSecret :=
  if String.eqb secretName "" then Throw Sample.ValidationException
  else Normal (OfSecretsManager secretName field).

Definition props (environment secretName : string) : EcsStack.Props string :=
  {| EcsStack.environment := environment;
     EcsStack.bucketName := "eduka3d-" +:+ environment +:+ "-bucket";
     EcsStack.cdnDomainName := "cdn.example.org";
     EcsStack.ecrRepositoryName := "eduka3d";
     EcsStack.acmCertificateArn := "";
     EcsStack.dbSecret := secretName;
     EcsStack.parameterStorePath := None |}.

End SampleEcs.

(** * Properties *)

(** ** Strings *)

Module StrFacts.
Import Str.

Lemma append_empty (s : string) : "" +:+ s = s.
Proof. reflexivity. Qed.

Lemma append_String (a : ascii) (s t : string) :
  String a s +:+ t = String a (s +:+ t).
Proof. reflexivity. Qed.

Lemma append_assoc (a b c : string) : (a +:+ b) +:+ c = a +:+ (b +:+ c).
Proof.
  induction a as [|x a IH]; [reflexivity|].
  rewrite !append_String. by rewrite IH.
Qed.

Lemma startsWith_app (needle rest : string) :
  startsWith (needle +:+ rest) needle = true.
Proof.
  induction needle as [|a needle IH]; [reflexivity|].
  rewrite append_String. simpl. rewrite Ascii.eqb_refl. exact IH.
Qed.

Lemma startsWith_split (hay needle : string) :
  startsWith hay needle = true -> exists rest, hay = needle +:+ rest.
Proof.
  revert hay; induction needle as [|a needle IH]; intros hay H.
  - exists hay. reflexivity.
  - destruct hay as [|b hay]; simpl in H; [discriminate|].
    apply andb_true_iff in H as [Hab H].
    apply Ascii.eqb_eq in Hab. subst b.
    destruct (IH _ H) as [rest ->]. exists rest. reflexivity.
Qed.

Lemma includes_app (pre needle post : string) :
  includes (pre +:+ needle +:+ post) needle = true.
Proof.
  induction pre as [|c pre IH].
  - rewrite append_empty.
    destruct (needle +:+ post) eqn:E; simpl;
      rewrite <- E, startsWith_app; reflexivity.
  - rewrite append_String. simpl. rewrite IH. apply orb_true_r.
Qed.

Lemma includes_split (hay needle : string) :
  includes hay needle = true ->
  exists pre post, hay = pre +:+ needle +:+ post.
Proof.
  induction hay as [|c hay IH]; simpl; intros H.
  - rewrite orb_false_r in H.
    apply startsWith_split in H as [post ->]. exists "", post. reflexivity.
  - apply orb_true_iff in H as [H|H].
    + apply startsWith_split in H as [post ->]. exists "", post. reflexivity.
    + destruct (IH H) as (pre & post & ->).
      exists (String c pre), post. reflexivity.
Qed.

(** The boolean test and the declarative reading of "contains". *)
Lemma includes_iff (hay needle : string) :
  includes hay needle = true <->
  exists pre post, hay = pre +:+ needle +:+ post.
Proof.
  split; [apply includes_split|].
  intros (pre & post & ->). apply includes_app.
Qed.

Lemma not_contains_iff (hay needle : string) :
  includes hay needle = false <-> ~ contains hay needle.
Proof.
  unfold contains. rewrite <- includes_iff.
  destruct (includes hay needle); split; congruence.
Qed.

End StrFacts.

(** ** The loop *)

Section MonadFacts.
Context {Construct Exn : Type}.

Lemma forOf_app {A S} (xs ys : list A) (body : A -> S -> M Construct Exn S) (acc : S) (w : World Construct) :
  forOf (xs ++ ys) body acc w = bind (forOf xs body acc) (forOf ys body) w.
Proof.
  revert acc w; induction xs as [|x xs IH]; intros acc w; simpl.
  - reflexivity.
  - unfold bind in *. destruct (body x acc w) as [w' [a|e]].
    + apply IH.
    + reflexivity.
Qed.

End MonadFacts.

(** ** The loop body and the loop, for any toolkit *)

Section HelperFacts.
Context {Construct Exn StringParameter Secret : Type}.
Variable fromStringParameterAttributes :
  Construct -> string -> string -> Construct * Completion Exn StringParameter.
Variable fromSsmParameter : StringParameter -> Completion Exn Secret.

Local Abbreviation secretOf :=
  (createParameterStoreSecret fromStringParameterAttributes fromSsmParameter).
Local Abbreviation body :=
  (createSecretsMap_body fromStringParameterAttributes fromSsmParameter).
Local Abbreviation secretsOf :=
  (createSecretsMap fromStringParameterAttributes fromSsmParameter).

Lemma body_success environment param secretsMap w w' secret :
  secretOf (environmentVariable param) (resolvedParameterPath environment param) w
    = (w', Normal secret) ->
  body environment param secretsMap w
    = (w', Normal (<[environmentVariable param := secret]> secretsMap)).
Proof.
  intros H. unfold createSecretsMap_body, tryCatch, bind at 1.
  rewrite H. reflexivity.
Qed.

Lemma body_failure environment param secretsMap w w' e :
  secretOf (environmentVariable param) (resolvedParameterPath environment param) w
    = (w', Throw e) ->
  body environment param secretsMap w
    = (afterCatch environment param w', Normal secretsMap).
Proof.
  intros H. unfold createSecretsMap_body, tryCatch, bind at 1.
  rewrite H. unfold afterCatch, bind.
  destruct (required_is_not_false param); reflexivity.
Qed.

(** The body always completes normally, with the map it was given or with
    that map and one more binding under the spec's variable. *)
Lemma body_cases environment param secretsMap w :
  (exists w' secret,
      secretOf (environmentVariable param) (resolvedParameterPath environment param) w
        = (w', Normal secret)
      /\ body environment param secretsMap w
         = (w', Normal (<[environmentVariable param := secret]> secretsMap)))
  \/ (exists w' e,
      secretOf (environmentVariable param) (resolvedParameterPath environment param) w
        = (w', Throw e)
      /\ body environment param secretsMap w
         = (afterCatch environment param w', Normal secretsMap)).
Proof.
  destruct (secretOf (environmentVariable param)
              (resolvedParameterPath environment param) w) as [w' [secret|e]] eqn:H.
  - left. exists w', secret. split; [reflexivity|]. by apply body_success.
  - right. exists w', e. split; [reflexivity|]. by eapply body_failure.
Qed.

Lemma body_normal environment param secretsMap w :
  exists w' m, body environment param secretsMap w = (w', Normal m).
Proof.
  destruct (body_cases environment param secretsMap w)
    as [(w' & secret & _ & ->)|(w' & e & _ & ->)]; eauto.
Qed.

Lemma loop_normal environment parameters secretsMap w :
  exists w' m, forOf parameters (body environment) secretsMap w = (w', Normal m).
Proof.
  revert secretsMap w.
  induction parameters as [|param parameters IH]; intros secretsMap w; simpl.
  - unfold ret. eauto.
  - unfold bind.
    destruct (body_normal environment param secretsMap w) as (w1 & m1 & ->).
    apply IH.
Qed.

(** Running the loop over [pre ++ post] is running it over [pre] and then
    over [post] from where [pre] ended. *)
Lemma loop_app environment pre post secretsMap w w1 m1 :
  forOf pre (body environment) secretsMap w = (w1, Normal m1) ->
  forOf (pre ++ post) (body environment) secretsMap w
    = forOf post (body environment) m1 w1.
Proof.
  intros H. rewrite forOf_app. unfold bind. rewrite H. reflexivity.
Qed.

(** Every key of the map is a key it had before the loop or the variable
    of a spec the loop went through. *)
Lemma loop_keys environment parameters secretsMap w w' m k :
  forOf parameters (body environment) secretsMap w = (w', Normal m) ->
  is_Some (m !! k) ->
  is_Some (secretsMap !! k)
  \/ exists param, param ∈ parameters /\ environmentVariable param = k.
Proof.
  revert secretsMap w.
  induction parameters as [|param parameters IH]; intros secretsMap w; simpl.
  - unfold ret. intros [= <- <-] Hk. by left.
  - unfold bind.
    destruct (body_cases environment param secretsMap w)
      as [(w1 & secret & _ & ->)|(w1 & e & _ & ->)]; intros Hrun Hk.
    + destruct (IH _ _ Hrun Hk) as [Hin|(q & Hq & <-)].
      * destruct (decide (environmentVariable param = k)) as [<-|Hne].
        -- right. exists param. split; [left|reflexivity].
        -- left. by rewrite lookup_insert_ne in Hin.
      * right. exists q. split; [by right|reflexivity].
    + destruct (IH _ _ Hrun Hk) as [Hin|(q & Hq & <-)].
      * by left.
      * right. exists q. split; [by right|reflexivity].
Qed.

(** Specs with another variable leave the binding of [k] alone. *)
Lemma loop_other_keys environment parameters secretsMap w w' m k :
  Forall (fun param => environmentVariable param <> k) parameters ->
  forOf parameters (body environment) secretsMap w = (w', Normal m) ->
  m !! k = secretsMap !! k.
Proof.
  intros Hall. revert secretsMap w.
  induction Hall as [|param parameters Hne _ IH]; intros secretsMap w; simpl.
  - unfold ret. by intros [= <- <-].
  - unfold bind.
    destruct (body_cases environment param secretsMap w)
      as [(w1 & secret & _ & ->)|(w1 & e & _ & ->)]; intros Hrun.
    + rewrite (IH _ _ Hrun). by apply lookup_insert_ne.
    + apply (IH _ _ Hrun).
Qed.

End HelperFacts.

(** ** Entries of a map, as the list of its bindings *)



(** ** Failures of the secret construction *)

Section Failures.
Context {Construct Exn StringParameter Secret : Type}.
Variable fromStringParameterAttributes :
  Construct -> string -> string -> Construct * Completion Exn StringParameter.
Variable fromSsmParameter : StringParameter -> Completion Exn Secret.

Local Abbreviation secretOf :=
  (createParameterStoreSecret fromStringParameterAttributes fromSsmParameter).
Local Abbreviation body :=
  (createSecretsMap_body fromStringParameterAttributes fromSsmParameter).
Local Abbreviation secretsOf :=
  (createSecretsMap fromStringParameterAttributes fromSsmParameter).

(** C1.  When the construction of the secret of a spec fails, in the state
    the specs before it have led to, the spec adds no entry: the map after
    the spec is the map before it, and if no other spec has its variable the
    returned map has no entry under that variable.  The construct tree is
    left as the failed call left it.  One warning is written when
    [required] is not [false] (so also when it is left out), and none when
    it is [false].  The loop goes on with the specs that follow and
    [createSecretsMap] completes normally. *)
Theorem failed_secret_is_omitted_and_warned
    (environment : string) (pre : list ParameterSecret) (param : ParameterSecret)
    (w w1 w2 : World Construct) (m1 : gmap string Secret) (e : Exn) :
  secretsOf environment pre w = (w1, Normal m1) ->
  secretOf (environmentVariable param) (resolvedParameterPath environment param) w1
    = (w2, Throw e) ->
  exists w3,
    secretsOf environment (pre ++ [param]) w = (w3, Normal m1)
    /\ scope w3 = scope w2
    /\ (required param <> Some false ->
        console w3
        = console w2 ++ [warningMessage param (resolvedParameterPath environment param)])
    /\ (required param = Some false -> console w3 = console w2)
    /\ forall post : list ParameterSecret,
        secretsOf environment (pre ++ param :: post) w
          = forOf post (body environment) m1 w3
        /\ exists w4 m,
            secretsOf environment (pre ++ param :: post) w = (w4, Normal m)
            /\ ((forall q, q ∈ pre ++ post ->
                   environmentVariable q <> environmentVariable param) ->
                m !! environmentVariable param = None).
Proof.
  intros Hpre Hfail.
  exists (afterCatch environment param w2).
  assert (Hone : forOf [param] (body environment) m1 w1
                 = (afterCatch environment param w2, Normal m1)).
  { simpl. unfold bind. by rewrite (body_failure _ _ _ _ _ _ _ e Hfail). }
  split; [|split; [|split; [|split]]].
  - unfold createSecretsMap. by rewrite (loop_app _ _ _ _ _ _ _ _ _ Hpre).
  - unfold afterCatch. by destruct (required_is_not_false param).
  - intros Hreq. unfold afterCatch, required_is_not_false.
    destruct (required param) as [[|]|]; done.
  - intros Hreq. unfold afterCatch, required_is_not_false. by rewrite Hreq.
  - intros post.
    assert (Hrun : secretsOf environment (pre ++ param :: post) w
                   = forOf post (body environment) m1 (afterCatch environment param w2)).
    { unfold createSecretsMap. rewrite (loop_app _ _ _ _ _ _ _ _ _ Hpre).
      simpl. unfold bind. by rewrite (body_failure _ _ _ _ _ _ _ e Hfail). }
    split; [exact Hrun|].
    destruct (loop_normal fromStringParameterAttributes fromSsmParameter
                environment post m1 (afterCatch environment param w2))
      as (w4 & m & Hpost).
    exists w4, m. split; [by rewrite Hrun|].
    intros Hfresh. apply eq_None_not_Some. intros Hsome.
    destruct (loop_keys _ _ _ _ _ _ _ _ _ Hpost Hsome) as [Hin|(q & Hq & Heq)].
    + destruct (loop_keys _ _ _ _ _ _ _ _ _ Hpre Hin) as [Hin0|(q & Hq & Heq)].
      * rewrite lookup_empty in Hin0. by destruct Hin0.
      * apply (Hfresh q); [|exact Heq]. apply elem_of_app. by left.
    + apply (Hfresh q); [|exact Heq]. apply elem_of_app. by right.
Qed.

(** C5, as the code has it.  The [catch] block of [createSecretsMap] does
    not look at what was thrown.  Whatever the toolkit throws, for whatever
    spec, [createSecretsMap] completes normally and returns a map: no
    exception of the secret construction reaches its caller.  An exception
    of any kind is handled in the one way there is: the map is left as it
    was, and a warning is written unless [required] is [false]. *)
Theorem createSecretsMap_catches_every_exception
    (environment : string) (parameters : list ParameterSecret) (w : World Construct) :
  (exists w' m, secretsOf environment parameters w = (w', Normal m))
  /\ forall (param : ParameterSecret) (secretsMap : gmap string Secret)
        (w1 w2 : World Construct) (e : Exn),
      secretOf (environmentVariable param) (resolvedParameterPath environment param) w1
        = (w2, Throw e) ->
      body environment param secretsMap w1
        = (afterCatch environment param w2, Normal secretsMap).
Proof.
  split.
  - apply loop_normal.
  - intros param secretsMap w1 w2 e. apply body_failure.
Qed.

(** C9.  Every key of the returned map is the [environmentVariable] of a spec
    of the input list, and the map returned for the empty list is empty,
    with nothing called and nothing written. *)
Theorem keys_come_from_the_specs
    (environment : string) (parameters : list ParameterSecret)
    (w w' : World Construct) (m : gmap string Secret) :
  secretsOf environment parameters w = (w', Normal m) ->
  (forall k, is_Some (m !! k) ->
     exists param, param ∈ parameters /\ environmentVariable param = k)
  /\ secretsOf environment [] w = (w, Normal ∅).
Proof.
  intros Hrun. split; [|reflexivity].
  intros k Hk.
  destruct (loop_keys _ _ _ _ _ _ _ _ _ Hrun Hk) as [Hin|Hex]; [|exact Hex].
  rewrite lookup_empty in Hin. by destruct Hin.
Qed.


End Failures.

(** ** Resource patterns *)

Lemma anySuffix_here (f : string -> bool) (s : string) :
  f s = true -> Iam.anySuffix f s = true.
Proof. intros H. destruct s; simpl; by rewrite H. Qed.

Lemma anySuffix_later (f : string -> bool) (c : ascii) (s : string) :
  Iam.anySuffix f s = true -> Iam.anySuffix f (String c s) = true.
Proof. intros H. simpl. rewrite H. apply orb_true_r. Qed.

(** The pattern [*] matches every string. *)
Lemma wildcardMatch_star (s : string) : Iam.wildcardMatch "*" s = true.
Proof.
  change (Iam.anySuffix (Iam.wildcardMatch "") s = true).
  induction s as [|c s IH].
  - reflexivity.
  - by apply anySuffix_later.
Qed.

(** A pattern matches itself, wildcards included, so a common prefix can
    be dropped from a pattern and a string. *)
Lemma wildcardMatch_prefix (a pattern s : string) :
  Iam.wildcardMatch pattern s = true ->
  Iam.wildcardMatch (a +:+ pattern) (a +:+ s) = true.
Proof.
  intros H. induction a as [|c a IH].
  - exact H.
  - rewrite !StrFacts.append_String. simpl.
    destruct (Ascii.eqb c "*").
    + apply anySuffix_later. by apply anySuffix_here.
    + rewrite Ascii.eqb_refl, orb_true_r. exact IH.
Qed.

(** ** Path resolution and the policy statements *)

Lemma resolvedParameterPath_kept (environment : string) (param : ParameterSecret) :
  Str.contains (parameterPath param) "/" ->
  resolvedParameterPath environment param = parameterPath param.
Proof.
  intros H. apply StrFacts.includes_iff in H.
  unfold resolvedParameterPath. by rewrite H.
Qed.

Lemma resolvedParameterPath_namespaced (environment : string) (param : ParameterSecret) :
  ~ Str.contains (parameterPath param) "/" ->
  resolvedParameterPath environment param
  = "/eduka3d/" +:+ environment +:+ "/" +:+ parameterPath param.
Proof.
  intros H. apply StrFacts.not_contains_iff in H.
  unfold resolvedParameterPath. by rewrite H.
Qed.

(** C3.  The resolved path is the spec's [parameterPath] itself when that
    path contains the separator, and otherwise the namespace literal, the
    environment and the bare key, joined by separators in that order. *)
Theorem resolved_path_cases (environment : string) (param : ParameterSecret) :
  (Str.contains (parameterPath param) "/" ->
   resolvedParameterPath environment param = parameterPath param)
  /\ (~ Str.contains (parameterPath param) "/" ->
      resolvedParameterPath environment param
      = "/eduka3d/" +:+ environment +:+ "/" +:+ parameterPath param).
Proof.
  split.
  - apply resolvedParameterPath_kept.
  - apply resolvedParameterPath_namespaced.
Qed.

(** C4, as the code has it.  A spec whose [parameterPath] is a bare key is
    resolved to [/eduka3d/<environment>/<key>], and the ARN of that
    parameter is matched by the resource pattern of the statement that
    [createParameterStorePolicy] builds for the same environment, region and
    account.  A spec whose [parameterPath] contains the separator keeps
    that path, whatever namespace it names. *)
Theorem bare_keys_resolve_inside_the_policy
    (environment region accountId : string) (param : ParameterSecret) :
  (~ Str.contains (parameterPath param) "/" ->
   resolvedParameterPath environment param
   = "/eduka3d/" +:+ environment +:+ "/" +:+ parameterPath param
   /\ Iam.resourceMatches (createParameterStorePolicy environment region accountId)
        (Iam.parameterArn region accountId (resolvedParameterPath environment param))
      = true)
  /\ (Str.contains (parameterPath param) "/" ->
      resolvedParameterPath environment param = parameterPath param).
Proof.
  split; [|apply resolvedParameterPath_kept].
  intros Hbare.
  pose proof (resolvedParameterPath_namespaced environment param Hbare) as Hpath.
  split; [exact Hpath|].
  rewrite Hpath. unfold Iam.resourceMatches, Iam.parameterArn. simpl.
  rewrite orb_false_r.
  do 4 apply wildcardMatch_prefix.
  change (Iam.wildcardMatch
            (":parameter/eduka3d/" +:+ environment +:+ "/" +:+ "*")
            (":parameter/eduka3d/" +:+ environment +:+ "/" +:+ parameterPath param)
          = true).
  do 3 apply wildcardMatch_prefix.
  apply wildcardMatch_star.
Qed.

(** C6.  For every environment, region and account the statement built by
    [createParameterStorePolicy] allows exactly the three read actions on
    one resource pattern, the parameter ARN prefix of the region and the
    account followed by [/eduka3d/<environment>/*].  The function is total:
    it has no failing case, for the empty environment either. *)
Theorem createParameterStorePolicy_statement (environment region accountId : string) :
  effect (createParameterStorePolicy environment region accountId) = ALLOW
  /\ actions (createParameterStorePolicy environment region accountId)
     = ["ssm:GetParameter"; "ssm:GetParameters"; "ssm:GetParametersByPath"]
  /\ resources (createParameterStorePolicy environment region accountId)
     = [("arn:aws:ssm:" +:+ region +:+ ":" +:+ accountId +:+ ":parameter")
          +:+ "/eduka3d/" +:+ environment +:+ "/*"].
Proof.
  split; [reflexivity|split; [reflexivity|]].
  simpl. f_equal.
  rewrite !StrFacts.append_assoc. reflexivity.
Qed.

(** C7.  [createKmsDecryptPolicy] returns the same statement at every call:
    it allows [kms:Decrypt] and [kms:DescribeKey] on the resource [*]. *)
Theorem createKmsDecryptPolicy_fixed (call call' : unit) :
  createKmsDecryptPolicy call = createKmsDecryptPolicy call'
  /\ effect (createKmsDecryptPolicy call) = ALLOW
  /\ actions (createKmsDecryptPolicy call) = ["kms:Decrypt"; "kms:DescribeKey"]
  /\ resources (createKmsDecryptPolicy call) = ["*"].
Proof. repeat split. Qed.

(** ** The calls made to the toolkit *)

Section Calls.
Context {Construct Exn StringParameter Secret : Type}.
Variable fromStringParameterAttributes :
  Construct -> string -> string -> Construct * Completion Exn StringParameter.
Variable fromSsmParameter : StringParameter -> Completion Exn Secret.

Local Abbreviation recorded := (recording fromStringParameterAttributes).

Lemma secret_call_recorded logicalId path (w : World (Construct * list (string * string))) :
  (scope (createParameterStoreSecret recorded fromSsmParameter logicalId path w).1).2
  = (scope w).2 ++ [(logicalId, path)].
Proof.
  unfold createParameterStoreSecret, bind, onScope, recording, ofCompletion.
  destruct (fromStringParameterAttributes (scope w).1 logicalId path) as [c [param|e]];
    reflexivity.
Qed.

Lemma body_call_recorded environment param secretsMap
    (w : World (Construct * list (string * string))) :
  (scope (createSecretsMap_body recorded fromSsmParameter
            environment param secretsMap w).1).2
  = (scope w).2
      ++ [(environmentVariable param, resolvedParameterPath environment param)].
Proof.
  rewrite <- secret_call_recorded.
  destruct (body_cases recorded fromSsmParameter environment param secretsMap w)
    as [(w' & secret & -> & ->)|(w' & e & -> & ->)]; [reflexivity|].
  unfold afterCatch. by destruct (required_is_not_false param).
Qed.

Lemma loop_calls_recorded environment parameters secretsMap
    (w : World (Construct * list (string * string))) :
  (scope (forOf parameters
            (createSecretsMap_body recorded fromSsmParameter environment)
            secretsMap w).1).2
  = (scope w).2 ++ callsOf environment parameters.
Proof.
  revert secretsMap w.
  induction parameters as [|param parameters IH]; intros secretsMap w; simpl.
  - by rewrite app_nil_r.
  - unfold bind.
    pose proof (body_call_recorded environment param secretsMap w) as Hcall.
    destruct (body_normal recorded fromSsmParameter environment param secretsMap w)
      as (w1 & m1 & Hbody).
    rewrite Hbody in Hcall |- *. simpl in Hcall.
    rewrite IH, Hcall, <- app_assoc. reflexivity.
Qed.

Lemma body_ignores_type environment p q (secretsMap : gmap string Secret)
    (w : World Construct) :
  sameExceptType p q ->
  createSecretsMap_body fromStringParameterAttributes fromSsmParameter
    environment p secretsMap w
  = createSecretsMap_body fromStringParameterAttributes fromSsmParameter
      environment q secretsMap w.
Proof.
  intros (Hvar & Hpath & Hreq).
  unfold createSecretsMap_body, resolvedParameterPath, warningMessage,
    required_is_not_false.
  by rewrite Hvar, Hpath, Hreq.
Qed.

Lemma loop_ignores_type environment l1 l2 (secretsMap : gmap string Secret)
    (w : World Construct) :
  Forall2 sameExceptType l1 l2 ->
  forOf l1 (createSecretsMap_body fromStringParameterAttributes fromSsmParameter
              environment) secretsMap w
  = forOf l2 (createSecretsMap_body fromStringParameterAttributes fromSsmParameter
                environment) secretsMap w.
Proof.
  intros Hsame. revert secretsMap w.
  induction Hsame as [|p q l1 l2 Hpq _ IH]; intros secretsMap w; simpl.
  - reflexivity.
  - unfold bind. rewrite (body_ignores_type _ _ _ _ _ Hpq).
    destruct (createSecretsMap_body _ _ environment q secretsMap w) as [w1 [m1|e]].
    + apply IH.
    + reflexivity.
Qed.

End Calls.

Lemma resolved_paths_ignore_type environment l1 l2 :
  Forall2 sameExceptType l1 l2 ->
  map (resolvedParameterPath environment) l1
  = map (resolvedParameterPath environment) l2.
Proof.
  induction 1 as [|p q l1 l2 (_ & Hpath & _) _ IH]; simpl; [reflexivity|].
  unfold resolvedParameterPath at 1 3. by rewrite Hpath, IH.
Qed.

(** C8.  Two spec lists that differ at most in the [type] fields resolve
    to the same paths, and [createSecretsMap] does the same on both: from
    every starting state and for every toolkit it leaves the same construct
    tree and the same warnings and returns the same map.  With a toolkit
    that writes its calls down, the calls written down are the same too. *)
Theorem type_field_has_no_effect
    {Construct Exn StringParameter Secret : Type}
    (fromStringParameterAttributes :
       Construct -> string -> string -> Construct * Completion Exn StringParameter)
    (fromSsmParameter : StringParameter -> Completion Exn Secret)
    (environment : string) (l1 l2 : list ParameterSecret) :
  Forall2 sameExceptType l1 l2 ->
  map (resolvedParameterPath environment) l1
  = map (resolvedParameterPath environment) l2
  /\ (forall w : World Construct,
        createSecretsMap fromStringParameterAttributes fromSsmParameter
          environment l1 w
        = createSecretsMap fromStringParameterAttributes fromSsmParameter
            environment l2 w)
  /\ (forall w : World (Construct * list (string * string)),
        (scope (createSecretsMap (recording fromStringParameterAttributes)
                  fromSsmParameter environment l1 w).1).2
        = (scope (createSecretsMap (recording fromStringParameterAttributes)
                    fromSsmParameter environment l2 w).1).2
        /\ (scope (createSecretsMap (recording fromStringParameterAttributes)
                     fromSsmParameter environment l1 w).1).2
           = (scope w).2 ++ callsOf environment l1).
Proof.
  intros Hsame. split; [by apply resolved_paths_ignore_type|split].
  - intros w. by apply loop_ignores_type.
  - intros w. split.
    + unfold createSecretsMap. by rewrite (loop_ignores_type _ _ _ _ _ _ _ Hsame).
    + apply loop_calls_recorded.
Qed.

(** C10.  Every entry of [DEFAULT_PARAMETERS] has a [parameterPath] without
    separator that is equal to its [environmentVariable].  So, for every
    environment, each default parameter is resolved to
    [/eduka3d/<environment>/<environmentVariable>], and these are the names
    [createSecretsMap] hands to the toolkit. *)
Theorem default_parameters_are_bare_keys :
  Forall (fun param =>
            ~ Str.contains (parameterPath param) "/"
            /\ parameterPath param = environmentVariable param)
         DEFAULT_PARAMETERS
  /\ (forall environment : string,
        Forall (fun param =>
                  resolvedParameterPath environment param
                  = "/eduka3d/" +:+ environment +:+ "/" +:+ environmentVariable param)
               DEFAULT_PARAMETERS)
  /\ (forall (environment : string) (param : ParameterSecret),
        param ∈ DEFAULT_PARAMETERS ->
        (environmentVariable param,
         "/eduka3d/" +:+ environment +:+ "/" +:+ environmentVariable param)
        ∈ callsOf environment DEFAULT_PARAMETERS).
Proof.
  assert (Hres : forall environment : string,
             Forall (fun param =>
                       resolvedParameterPath environment param
                       = "/eduka3d/" +:+ environment +:+ "/" +:+ environmentVariable param)
                    DEFAULT_PARAMETERS).
  { intros environment. unfold DEFAULT_PARAMETERS.
    repeat (apply Forall_cons; split; [reflexivity|]). apply Forall_nil_2. }
  split; [|split; [exact Hres|]].
  - unfold DEFAULT_PARAMETERS.
    repeat (apply Forall_cons; split;
            [split; [by apply StrFacts.not_contains_iff|reflexivity]|]).
    apply Forall_nil_2.
  - intros environment param Hin.
    pose proof (proj1 (Forall_forall _ _) (Hres environment) param Hin) as Heq.
    simpl in Heq. rewrite <- Heq.
    unfold callsOf.
    apply (list_elem_of_fmap_2
             (fun param => (environmentVariable param,
                            resolvedParameterPath environment param))).
    exact Hin.
Qed.

(** ** The theorems at concrete specs *)

Import Sample.

(** C1 at a list of two specs: the second leaves [required] out and its
    parameter is missing. *)
Lemma failed_secret_is_omitted_and_warned_witness :
  exists w3,
    run (failsAt "/eduka3d/prod/DB_PASS" ParameterNotFound) "prod"
      [spec "API_URL" "API_URL" None; spec "DB_PASS" "DB_PASS" None] start
    = (w3, Normal {[ "API_URL" := FromSsmParameter (mkImported "API_URL" "/eduka3d/prod/API_URL") ]})
    /\ console w3
       = ["Warning: Could not create secret for DB_PASS at /eduka3d/prod/DB_PASS"].
Proof.
  destruct (failed_secret_is_omitted_and_warned
              (fromStringParameterAttributes
                 (failsAt "/eduka3d/prod/DB_PASS" ParameterNotFound))
              fromSsmParameter "prod"
              [spec "API_URL" "API_URL" None] (spec "DB_PASS" "DB_PASS" None)
              start
              (mkWorld [mkImported "API_URL" "/eduka3d/prod/API_URL"] [])
              (mkWorld [mkImported "API_URL" "/eduka3d/prod/API_URL"] [])
              {[ "API_URL" := FromSsmParameter (mkImported "API_URL" "/eduka3d/prod/API_URL") ]}
              ParameterNotFound eq_refl eq_refl)
    as (w3 & Hrun & _ & Hwarn & _).
  exists w3. split; [exact Hrun|]. apply Hwarn. discriminate.
Defined.


(** C3 at a path with separators and at a bare key. *)
Lemma resolved_path_cases_witness :
  resolvedParameterPath "dev" (spec "API_KEY" "/shared/common/API_KEY" None)
  = "/shared/common/API_KEY"
  /\ resolvedParameterPath "dev" (spec "API_KEY" "API_KEY" None)
     = "/eduka3d/dev/API_KEY".
Proof.
  split.
  - apply (proj1 (resolved_path_cases "dev"
                    (spec "API_KEY" "/shared/common/API_KEY" None))).
    exists "", "shared/common/API_KEY". reflexivity.
  - apply (proj2 (resolved_path_cases "dev" (spec "API_KEY" "API_KEY" None))).
    apply StrFacts.not_contains_iff. reflexivity.
Defined.

(** C4 as stated fails at a spec that names a path of another namespace:
    the resolved path is that path, it is not of the form
    [/eduka3d/dev/<suffix>], and the statement built for [dev] does not
    match its ARN. *)
Lemma namespace_escape_counterexample :
  resolvedParameterPath "dev" (spec "API_KEY" "/shared/common/API_KEY" None)
  = "/shared/common/API_KEY"
  /\ ~ (exists suffix,
          resolvedParameterPath "dev" (spec "API_KEY" "/shared/common/API_KEY" None)
          = "/eduka3d/" +:+ "dev" +:+ "/" +:+ suffix)
  /\ Iam.resourceMatches (createParameterStorePolicy "dev" "eu-central-1" "123456789012")
       (Iam.parameterArn "eu-central-1" "123456789012"
          (resolvedParameterPath "dev" (spec "API_KEY" "/shared/common/API_KEY" None)))
     = false.
Proof.
  split; [reflexivity|split; [|reflexivity]].
  intros [suffix H]. discriminate H.
Qed.

(** C4, amended, at a bare key and at a path with separators. *)
Lemma bare_keys_resolve_inside_the_policy_witness :
  (resolvedParameterPath "dev" (spec "API_KEY" "API_KEY" None) = "/eduka3d/dev/API_KEY"
   /\ Iam.resourceMatches (createParameterStorePolicy "dev" "eu-central-1" "123456789012")
        (Iam.parameterArn "eu-central-1" "123456789012"
           (resolvedParameterPath "dev" (spec "API_KEY" "API_KEY" None)))
      = true)
  /\ resolvedParameterPath "dev" (spec "API_KEY" "/shared/common/API_KEY" None)
     = "/shared/common/API_KEY".
Proof.
  split.
  - apply (proj1 (bare_keys_resolve_inside_the_policy "dev" "eu-central-1" "123456789012"
                    (spec "API_KEY" "API_KEY" None))).
    apply StrFacts.not_contains_iff. reflexivity.
  - apply (proj2 (bare_keys_resolve_inside_the_policy "dev" "eu-central-1" "123456789012"
                    (spec "API_KEY" "/shared/common/API_KEY" None))).
    exists "", "shared/common/API_KEY". reflexivity.
Defined.

(** C5 as stated fails when the parameter store denies access: the
    construction of the secret throws [AccessDenied], which is not a
    not-found failure, and [createSecretsMap] still completes normally, with
    a warning and an empty map. *)
Lemma access_denied_is_caught_counterexample :
  createParameterStoreSecret
    (fromStringParameterAttributes (failsAt "/eduka3d/prod/DB_PASS" AccessDenied))
    fromSsmParameter "DB_PASS"
    (resolvedParameterPath "prod" (spec "DB_PASS" "DB_PASS" (Some true))) start
  = (start, Throw AccessDenied)
  /\ AccessDenied <> ParameterNotFound
  /\ run (failsAt "/eduka3d/prod/DB_PASS" AccessDenied) "prod"
       [spec "DB_PASS" "DB_PASS" (Some true)] start
     = (mkWorld []
          ["Warning: Could not create secret for DB_PASS at /eduka3d/prod/DB_PASS"],
        Normal ∅).
Proof. split; [reflexivity|split; [discriminate|reflexivity]]. Qed.

(** C5, amended, at a throttled call for an optional spec: the exception is
    caught, nothing is written and the map is left as it was. *)
Lemma createSecretsMap_catches_every_exception_witness :
  createSecretsMap_body
    (fromStringParameterAttributes (failsAt "/eduka3d/prod/SENTRY_DSN" ThrottlingException))
    fromSsmParameter "prod" (spec "SENTRY_DSN" "SENTRY_DSN" (Some false)) ∅ start
  = (start, Normal ∅).
Proof.
  apply (proj2 (createSecretsMap_catches_every_exception
                  (fromStringParameterAttributes
                     (failsAt "/eduka3d/prod/SENTRY_DSN" ThrottlingException))
                  fromSsmParameter "prod" [] start)
           (spec "SENTRY_DSN" "SENTRY_DSN" (Some false)) ∅ start start
           ThrottlingException).
  reflexivity.
Defined.

(** C8 at two lists that differ in the [type] of their entry. *)
Lemma type_field_has_no_effect_witness :
  run allPresent "dev"
    [{| environmentVariable := "DJANGO_SECRET_KEY"; parameterPath := "DJANGO_SECRET_KEY";
        type := Some TString; required := Some true |}] start
  = run allPresent "dev"
      [{| environmentVariable := "DJANGO_SECRET_KEY"; parameterPath := "DJANGO_SECRET_KEY";
          type := Some TSecureString; required := Some true |}] start.
Proof.
  apply (type_field_has_no_effect
           (fromStringParameterAttributes allPresent) fromSsmParameter "dev").
  constructor; [repeat split|constructor].
Defined.

(** C9 at a list of two specs, one of which fails. *)
Lemma keys_come_from_the_specs_witness :
  exists param,
    param ∈ [spec "API_URL" "API_URL" None; spec "DB_PASS" "DB_PASS" None]
    /\ environmentVariable param = "API_URL".
Proof.
  apply (proj1 (keys_come_from_the_specs
                  (fromStringParameterAttributes
                     (failsAt "/eduka3d/prod/DB_PASS" ParameterNotFound))
                  fromSsmParameter "prod"
                  [spec "API_URL" "API_URL" None; spec "DB_PASS" "DB_PASS" None]
                  start
                  (mkWorld [mkImported "API_URL" "/eduka3d/prod/API_URL"]
                     ["Warning: Could not create secret for DB_PASS at /eduka3d/prod/DB_PASS"])
                  {[ "API_URL" := FromSsmParameter (mkImported "API_URL" "/eduka3d/prod/API_URL") ]}
                  eq_refl)).
  exists (FromSsmParameter (mkImported "API_URL" "/eduka3d/prod/API_URL")).
  reflexivity.
Defined.

(** * More on the helper and on the stacks that use it *)

(** ** The loop, the map and the console *)

Section LoopFacts.
Context {Construct Exn StringParameter Secret : Type}.
Variable fromStringParameterAttributes :
  Construct -> string -> string -> Construct * Completion Exn StringParameter.
Variable fromSsmParameter : StringParameter -> Completion Exn Secret.

Local Abbreviation secretOf :=
  (createParameterStoreSecret fromStringParameterAttributes fromSsmParameter).
Local Abbreviation body :=
  (createSecretsMap_body fromStringParameterAttributes fromSsmParameter).
Local Abbreviation secretsOf :=
  (createSecretsMap fromStringParameterAttributes fromSsmParameter).

(** The toolkit calls leave the console alone. *)
Lemma secret_keeps_console logicalId path (w : World Construct) :
  console (secretOf logicalId path w).1 = console w.
Proof.
  unfold createParameterStoreSecret, bind, onScope, ofCompletion.
  destruct (fromStringParameterAttributes (scope w) logicalId path) as [c [param|e]];
    reflexivity.
Qed.

(** The entries the loop starts with stay below the ones it adds. *)
Lemma loop_union environment parameters (m0 m : gmap string Secret) w w' r :
  forOf parameters (body environment) m0 w = (w', Normal r) ->
  forOf parameters (body environment) (m0 ∪ m) w = (w', Normal (r ∪ m)).
Proof.
  revert m0 w.
  induction parameters as [|param parameters IH]; intros m0 w; simpl.
  - unfold ret. by intros [= <- <-].
  - unfold bind.
    destruct (body_cases fromStringParameterAttributes fromSsmParameter environment param m0 w)
      as [(w1 & secret & Hcall & ->)|(w1 & e & Hcall & ->)]; intros Hrun.
    + rewrite (body_success _ _ _ _ _ _ _ _ Hcall).
      rewrite insert_union_l. by apply IH.
    + rewrite (body_failure _ _ _ _ _ _ _ e Hcall). by apply IH.
Qed.

(** What a run of the loop adds to the console and to the map. *)
Lemma loop_lines environment parameters (m0 : gmap string Secret) w w' m :
  forOf parameters (body environment) m0 w = (w', Normal m) ->
  exists lines,
    console w' = console w ++ lines
    /\ Forall (fun line =>
                 exists param, param ∈ parameters /\ required param <> Some false
                   /\ line = warningMessage param (resolvedParameterPath environment param))
              lines
    /\ size m + length lines <= size m0 + length parameters
    /\ (Forall (fun param => required param = Some false) parameters -> lines = []).
Proof.
  revert m0 w.
  induction parameters as [|param parameters IH]; intros m0 w; simpl.
  - unfold ret. intros [= <- <-]. exists [].
    rewrite app_nil_r. repeat split; [constructor|simpl; lia].
  - unfold bind.
    destruct (body_cases fromStringParameterAttributes fromSsmParameter environment param m0 w)
      as [(w1 & secret & Hcall & ->)|(w1 & e & Hcall & ->)]; intros Hrun.
    + destruct (IH _ _ Hrun) as (lines & Hcon & Hall & Hsize & Hopt).
      exists lines.
      pose proof (secret_keeps_console (environmentVariable param)
                    (resolvedParameterPath environment param) w) as Hkeep.
      rewrite Hcall in Hkeep. simpl in Hkeep. rewrite Hkeep in Hcon.
      split; [exact Hcon|split; [|split]].
      * eapply Forall_impl; [exact Hall|].
        intros line (q & Hq & Hreq & ->). exists q. split; [by right|done].
      * rewrite map_size_insert in Hsize.
        destruct (m0 !! environmentVariable param); simpl in Hsize; lia.
      * intros Hoptional. apply Hopt. by apply Forall_cons in Hoptional as [_ ?].
    + destruct (IH _ _ Hrun) as (lines & Hcon & Hall & Hsize & Hopt).
      pose proof (secret_keeps_console (environmentVariable param)
                    (resolvedParameterPath environment param) w) as Hkeep.
      rewrite Hcall in Hkeep. simpl in Hkeep.
      assert (Hrest : Forall (fun line =>
                 exists q, q ∈ param :: parameters /\ required q <> Some false
                   /\ line = warningMessage q (resolvedParameterPath environment q))
                lines).
      { eapply Forall_impl; [exact Hall|].
        intros line (q & Hq & Hreq & ->). exists q. split; [by right|done]. }
      unfold afterCatch, required_is_not_false in Hcon.
      destruct (required param) as [[|]|] eqn:Hreq; simpl in Hcon.
      * exists (warningMessage param (resolvedParameterPath environment param) :: lines).
        rewrite Hkeep, <- app_assoc in Hcon.
        split; [exact Hcon|split; [|split]].
        -- apply Forall_cons. split; [|exact Hrest].
           exists param. split; [left|]. by rewrite Hreq.
        -- simpl. lia.
        -- intros Hoptional. apply Forall_cons in Hoptional as [Hfalse _].
           rewrite Hreq in Hfalse. discriminate.
      * exists lines. rewrite Hkeep in Hcon.
        split; [exact Hcon|split; [exact Hrest|split; [lia|]]].
        intros Hoptional. apply Hopt. by apply Forall_cons in Hoptional as [_ ?].
      * exists (warningMessage param (resolvedParameterPath environment param) :: lines).
        rewrite Hkeep, <- app_assoc in Hcon.
        split; [exact Hcon|split; [|split]].
        -- apply Forall_cons. split; [|exact Hrest].
           exists param. split; [left|]. by rewrite Hreq.
        -- simpl. lia.
        -- intros Hoptional. apply Forall_cons in Hoptional as [Hfalse _].
           rewrite Hreq in Hfalse. discriminate.
Qed.


(** X1.  Running [createSecretsMap] on a list in two parts, the second from
    the state the first has left, and laying the second map over the first
    gives what one run on the whole list gives: the same state and the same
    map. *)
Theorem createSecretsMap_of_concatenation
    (environment : string) (l1 l2 : list ParameterSecret)
    (w w1 w2 : World Construct) (m1 m2 : gmap string Secret) :
  secretsOf environment l1 w = (w1, Normal m1) ->
  secretsOf environment l2 w1 = (w2, Normal m2) ->
  secretsOf environment (l1 ++ l2) w = (w2, Normal (m2 ∪ m1)).
Proof.
  intros H1 H2. unfold createSecretsMap.
  rewrite (loop_app _ _ _ _ _ _ _ _ _ H1).
  rewrite <- (left_id_L ∅ (∪) m1) at 1.
  by apply loop_union.
Qed.


(** X3.  [createSecretsMap] only adds to the console.  Every line it adds
    is the warning of a spec of the list whose [required] is not [false];
    a list of optional specs adds none.  Entries and warnings together are
    at most as many as the specs. *)
Theorem warnings_come_from_required_specs
    (environment : string) (parameters : list ParameterSecret)
    (w w' : World Construct) (m : gmap string Secret) :
  secretsOf environment parameters w = (w', Normal m) ->
  exists lines,
    console w' = console w ++ lines
    /\ Forall (fun line =>
                 exists param, param ∈ parameters /\ required param <> Some false
                   /\ line = warningMessage param (resolvedParameterPath environment param))
              lines
    /\ size m + length lines <= length parameters
    /\ (Forall (fun param => required param = Some false) parameters -> lines = []).
Proof.
  intros Hrun.
  destruct (loop_lines _ _ _ _ _ _ Hrun) as (lines & Hcon & Hall & Hsize & Hopt).
  exists lines. rewrite map_size_empty in Hsize. auto.
Qed.


End LoopFacts.

(** ** More on strings *)

Module StrMore.

Lemma length_append (a b : string) :
  String.length (a +:+ b) = String.length a + String.length b.
Proof.
  induction a as [|c a IH]; [reflexivity|].
  rewrite StrFacts.append_String. simpl. by rewrite IH.
Qed.

Lemma append_inv_head (a x y : string) : a +:+ x = a +:+ y -> x = y.
Proof.
  induction a as [|c a IH]; [done|].
  rewrite !StrFacts.append_String. intros [= H]. by apply IH.
Qed.

(** The text before the first separator is determined by the string. *)
Lemma split_at_separator (a b x y : string) :
  Str.includes a "/" = false -> Str.includes b "/" = false ->
  a +:+ "/" +:+ x = b +:+ "/" +:+ y -> a = b.
Proof.
  revert b. induction a as [|c a IH]; intros [|d b] Ha Hb.
  - done.
  - rewrite StrFacts.append_empty, StrFacts.append_String.
    change ("/" +:+ x) with (String "/" x). intros [= <- _].
    simpl in Hb. discriminate.
  - rewrite StrFacts.append_empty, StrFacts.append_String.
    change ("/" +:+ y) with (String "/" y). intros [= -> _].
    simpl in Ha. discriminate.
  - rewrite !StrFacts.append_String. intros [= <- H]. f_equal.
    apply (IH b); [| |exact H].
    + simpl in Ha. apply orb_false_iff in Ha as [_ Ha]. exact Ha.
    + simpl in Hb. apply orb_false_iff in Hb as [_ Hb]. exact Hb.
Qed.

End StrMore.

(** ** More on resource patterns *)

(** The ARN of a parameter under [/eduka3d/<environment>/] is matched by
    the pattern of the statement for that environment. *)
Lemma namespaced_name_is_matched (environment region accountId key : string) :
  Iam.resourceMatches (createParameterStorePolicy environment region accountId)
    (Iam.parameterArn region accountId ("/eduka3d/" +:+ environment +:+ "/" +:+ key))
  = true.
Proof.
  unfold Iam.resourceMatches, Iam.parameterArn. simpl.
  rewrite orb_false_r.
  do 4 apply wildcardMatch_prefix.
  change (Iam.wildcardMatch
            (":parameter/eduka3d/" +:+ environment +:+ "/" +:+ "*")
            (":parameter/eduka3d/" +:+ environment +:+ "/" +:+ key)
          = true).
  do 3 apply wildcardMatch_prefix.
  apply wildcardMatch_star.
Qed.

(** A pattern that begins with literal text matches only strings that begin
    with that text. *)
Lemma wildcardMatch_literal (lit pattern s : string) :
  isLiteral lit = true ->
  Iam.wildcardMatch (lit +:+ pattern) s = true ->
  exists rest, s = lit +:+ rest /\ Iam.wildcardMatch pattern rest = true.
Proof.
  revert s. induction lit as [|c lit IH]; intros s Hlit Hmatch.
  - exists s. by split.
  - simpl in Hlit.
    apply andb_true_iff in Hlit as [Hc Hlit].
    apply andb_true_iff in Hc as [Hstar Hquestion].
    apply negb_true_iff in Hstar, Hquestion.
    rewrite StrFacts.append_String in Hmatch. simpl in Hmatch.
    rewrite Hstar, Hquestion in Hmatch.
    destruct s as [|d s]; [discriminate|].
    apply andb_true_iff in Hmatch as [Hcd Hmatch]. simpl in Hcd.
    apply Ascii.eqb_eq in Hcd. subst d.
    destruct (IH s Hlit Hmatch) as (rest & -> & Hrest).
    exists rest. by split.
Qed.

(** The same, when the string is known to begin with the text. *)
Lemma wildcardMatch_literal_inv (lit pattern s : string) :
  isLiteral lit = true ->
  Iam.wildcardMatch (lit +:+ pattern) (lit +:+ s) = true ->
  Iam.wildcardMatch pattern s = true.
Proof.
  intros Hlit Hmatch.
  destruct (wildcardMatch_literal _ _ _ Hlit Hmatch) as (rest & Heq & Hrest).
  apply StrMore.append_inv_head in Heq. by subst rest.
Qed.

(** X5.  The statement built for one environment does not match a
    parameter that [createSecretsMap] resolves for a bare key in another
    environment, when neither environment name contains the separator and
    the environment, region and account of the statement contain no
    wildcard character. *)
Theorem policy_does_not_reach_other_environments
    (environment other region accountId : string) (param : ParameterSecret) :
  isLiteral region = true ->
  isLiteral accountId = true ->
  isLiteral environment = true ->
  Str.includes environment "/" = false ->
  Str.includes other "/" = false ->
  Str.includes (parameterPath param) "/" = false ->
  environment <> other ->
  Iam.resourceMatches (createParameterStorePolicy environment region accountId)
    (Iam.parameterArn region accountId (resolvedParameterPath other param))
  = false.
Proof.
  intros Hregion Haccount Henv Hsep Hsep' Hbare Hne.
  unfold resolvedParameterPath. rewrite Hbare.
  unfold Iam.resourceMatches, Iam.parameterArn. simpl.
  rewrite orb_false_r.
  apply not_true_is_false. intros Hmatch.
  apply (wildcardMatch_literal_inv "arn:aws:ssm:") in Hmatch; [|reflexivity].
  rewrite ?StrFacts.append_empty in Hmatch.
  apply wildcardMatch_literal_inv in Hmatch; [|exact Hregion].
  apply (wildcardMatch_literal_inv ":") in Hmatch; [|reflexivity].
  rewrite ?StrFacts.append_empty in Hmatch.
  apply wildcardMatch_literal_inv in Hmatch; [|exact Haccount].
  change (Iam.wildcardMatch
            (":parameter/eduka3d/" +:+ environment +:+ "/" +:+ "*")
            (":parameter/eduka3d/" +:+ other +:+ "/" +:+ parameterPath param)
          = true) in Hmatch.
  apply (wildcardMatch_literal_inv ":parameter/eduka3d/") in Hmatch; [|reflexivity].
  destruct (wildcardMatch_literal _ _ _ Henv Hmatch) as (rest & Heq & Hrest).
  destruct (wildcardMatch_literal "/" _ _ eq_refl Hrest) as (rest' & -> & _).
  apply Hne. symmetry.
  by apply (StrMore.split_at_separator _ _ _ _ Hsep' Hsep Heq).
Qed.

(** ** The secrets of the ECS container *)

Lemma other_variable (parameters : list ParameterSecret) (k : string) :
  k ∉ environmentVariable <$> parameters ->
  Forall (fun param => environmentVariable param <> k) parameters.
Proof.
  intros Hk. apply Forall_forall. intros param Hin Heq. apply Hk.
  rewrite <- Heq. by apply list_elem_of_fmap_2.
Qed.


(** A name given in full is not a variable of the default parameters. *)
Ltac not_a_default_variable :=
  let H := fresh "H" in
  unfold DEFAULT_PARAMETERS; simpl; intros H;
  repeat (apply elem_of_cons in H as [H|H]; [discriminate H|]);
  by apply elem_of_nil in H.

Section EcsFacts.
Context {Construct Exn StringParameter Secret DbSecret : Type}.
Variable fromStringParameterAttributes :
  Construct -> string -> string -> Construct * Completion Exn StringParameter.
Variable fromSsmParameter : StringParameter -> Completion Exn Secret.
Variable fromSecretsManager : DbSecret -> string -> Completion Exn Secret.

(** The helper's map for the default parameters has no entry under a name
    that is not one of their variables. *)
Lemma default_map_misses environment (w w' : World Construct) (m0 : gmap string Secret) k :
  k ∉ environmentVariable <$> DEFAULT_PARAMETERS ->
  createSecretsMap fromStringParameterAttributes fromSsmParameter
    environment DEFAULT_PARAMETERS w = (w', Normal m0) ->
  m0 !! k = None.
Proof.
  intros Hk Hrun.
  rewrite (loop_other_keys _ _ _ _ _ _ _ _ _ (other_variable _ _ Hk) Hrun).
  apply lookup_empty.
Qed.

(** X6.  When the reference to the database secret is built, the [secrets]
    object of the container binds [DATABASE_PASSWORD] to it, whatever
    happened to the Parameter Store secrets.  The assignment replaces no
    entry of the helper's map, which is kept under all other names, and no
    name of the [environment] object of the container is a key of the
    [secrets] object. *)
Theorem database_password_is_always_bound
    (props : EcsStack.Props DbSecret) (region : string)
    (w : World Construct) (secret : Secret) :
  fromSecretsManager (EcsStack.dbSecret props) "password" = Normal secret ->
  exists w' m0 m,
    createSecretsMap fromStringParameterAttributes fromSsmParameter
      (EcsStack.environment props) DEFAULT_PARAMETERS w = (w', Normal m0)
    /\ EcsStack.secretsMap fromStringParameterAttributes fromSsmParameter
         fromSecretsManager props w = (w', Normal m)
    /\ m !! "DATABASE_PASSWORD" = Some secret
    /\ m0 !! "DATABASE_PASSWORD" = None
    /\ (forall k, k <> "DATABASE_PASSWORD" -> m !! k = m0 !! k)
    /\ (forall k, k ∈ (EcsStack.containerEnvironment props region).*1 -> m !! k = None).
Proof.
  intros Hsecret.
  destruct (loop_normal fromStringParameterAttributes fromSsmParameter
              (EcsStack.environment props) DEFAULT_PARAMETERS ∅ w)
    as (w' & m0 & Hrun).
  exists w', m0, (<["DATABASE_PASSWORD" := secret]> m0).
  split; [exact Hrun|split; [|split; [|split; [|split]]]].
  - unfold EcsStack.secretsMap, bind, createSecretsMap at 1.
    rewrite Hrun. unfold ofCompletion. by rewrite Hsecret.
  - apply lookup_insert_eq.
  - eapply default_map_misses; [|exact Hrun]. not_a_default_variable.
  - intros k Hk. by apply lookup_insert_ne.
  - intros k Hk. simpl in Hk.
    repeat (apply elem_of_cons in Hk as [->|Hk]);
      [..|by apply elem_of_nil in Hk];
      (rewrite lookup_insert_ne by discriminate;
       eapply default_map_misses; [|exact Hrun]; not_a_default_variable).
Qed.



End EcsFacts.

(** X6 at the props of [prod] with the secret [eduka3d-db], when the
    parameter [DATABASE_HOST] is missing. *)
Lemma database_password_is_always_bound_witness :
  exists w' m,
    EcsStack.secretsMap
      (Sample.fromStringParameterAttributes
         (Sample.failsAt "/eduka3d/prod/DATABASE_HOST" Sample.ParameterNotFound))
      SampleEcs.fromSsmParameter SampleEcs.fromSecretsManager
      (SampleEcs.props "prod" "eduka3d-db") Sample.start
    = (w', Normal m)
    /\ m !! "DATABASE_PASSWORD" = Some (SampleEcs.OfSecretsManager "eduka3d-db" "password")
    /\ m !! "DATABASE_HOST" = None
    /\ m !! "DEBUG" = None.
Proof.
  destruct (database_password_is_always_bound
              (Sample.fromStringParameterAttributes
                 (Sample.failsAt "/eduka3d/prod/DATABASE_HOST" Sample.ParameterNotFound))
              SampleEcs.fromSsmParameter SampleEcs.fromSecretsManager
              (SampleEcs.props "prod" "eduka3d-db") "eu-central-1" Sample.start
              (SampleEcs.OfSecretsManager "eduka3d-db" "password") eq_refl)
    as (w' & m0 & m & Hhelper & Hrun & Hpassword & _ & Hother & Henv).
  exists w', m. split; [exact Hrun|split; [exact Hpassword|split]].
  - rewrite (Hother "DATABASE_HOST") by discriminate.
    vm_compute in Hhelper. injection Hhelper as _ <-. reflexivity.
  - apply Henv. simpl. left.
Defined.


(** ** The theorems on the helper at concrete specs *)

(** X1 at two lists of one spec; the second spec fails. *)
Lemma createSecretsMap_of_concatenation_witness :
  run (failsAt "/eduka3d/prod/DB_PASS" ParameterNotFound) "prod"
    ([spec "API_URL" "API_URL" None] ++ [spec "DB_PASS" "DB_PASS" None]) start
  = (mkWorld [mkImported "API_URL" "/eduka3d/prod/API_URL"]
       ["Warning: Could not create secret for DB_PASS at /eduka3d/prod/DB_PASS"],
     Normal (∅ ∪ {[ "API_URL" := FromSsmParameter (mkImported "API_URL" "/eduka3d/prod/API_URL") ]})).
Proof.
  apply (createSecretsMap_of_concatenation
           (fromStringParameterAttributes
              (failsAt "/eduka3d/prod/DB_PASS" ParameterNotFound))
           fromSsmParameter "prod"
           [spec "API_URL" "API_URL" None] [spec "DB_PASS" "DB_PASS" None]
           start (mkWorld [mkImported "API_URL" "/eduka3d/prod/API_URL"] [])).
  - reflexivity.
  - reflexivity.
Defined.


(** X3 at a required and an optional spec that both fail. *)
Lemma warnings_come_from_required_specs_witness :
  exists lines,
    ["Warning: Could not create secret for DB_PASS at /eduka3d/prod/DB_PASS"]
    = [] ++ lines
    /\ 0 + length lines <= 2.
Proof.
  destruct (warnings_come_from_required_specs
              (fromStringParameterAttributes (fun _ => Some ParameterNotFound))
              fromSsmParameter "prod"
              [spec "DB_PASS" "DB_PASS" None; spec "SENTRY_DSN" "SENTRY_DSN" (Some false)]
              start
              (mkWorld []
                 ["Warning: Could not create secret for DB_PASS at /eduka3d/prod/DB_PASS"])
              ∅ eq_refl)
    as (lines & Hcon & _ & Hsize & _).
  exists lines. by split.
Defined.


(** X5 at the statement of [dev] and a parameter of [prod]. *)
Lemma policy_does_not_reach_other_environments_witness :
  Iam.resourceMatches (createParameterStorePolicy "dev" "eu-central-1" "123456789012")
    (Iam.parameterArn "eu-central-1" "123456789012"
       (resolvedParameterPath "prod" (spec "DB_PASS" "DB_PASS" None)))
  = false.
Proof.
  apply (policy_does_not_reach_other_environments
           "dev" "prod" "eu-central-1" "123456789012" (spec "DB_PASS" "DB_PASS" None));
    [reflexivity..|discriminate].
Defined.

(** ** Names across the stacks *)

(** Two names differ: by their lengths, or by what is left of them once a
    common beginning is taken away. *)
Ltac different_names :=
  let H := fresh "H" in
  intros H;
  first
    [ by (apply (f_equal String.length) in H;
          rewrite ?StrMore.length_append in H; simpl in H; lia)
    | by (repeat apply StrMore.append_inv_head in H; discriminate H) ].

Ltac all_different :=
  repeat (apply NoDup_cons; split;
          [rewrite ?not_elem_of_cons; repeat split;
           [different_names..|apply not_elem_of_nil]|]);
  apply NoDup_nil_2.

(** X9.  Each of the four parameters that the Aurora stack writes is read
    by the ECS stack of the same environment: its name is the resolved path
    of a required entry of [DEFAULT_PARAMETERS], and its ARN is matched by
    the statement [createParameterStorePolicy] builds for that
    environment. *)
Theorem aurora_parameters_are_read_by_ecs
    {Number : Type} (props : AuroraStack.Props Number)
    (hostname region accountId : string) :
  Forall (fun written =>
            exists param,
              param ∈ DEFAULT_PARAMETERS
              /\ required param = Some true
              /\ resolvedParameterPath (AuroraStack.environment props) param
                 = AuroraStack.parameterName written
              /\ Iam.resourceMatches
                   (createParameterStorePolicy (AuroraStack.environment props)
                      region accountId)
                   (Iam.parameterArn region accountId (AuroraStack.parameterName written))
                 = true)
         (AuroraStack.parameters props hostname).
Proof.
  assert (Hread : forall variable : string,
             {| environmentVariable := variable; parameterPath := variable;
                type := Some TString; required := Some true |} ∈ DEFAULT_PARAMETERS ->
             Str.includes variable "/" = false ->
             exists param,
               param ∈ DEFAULT_PARAMETERS
               /\ required param = Some true
               /\ resolvedParameterPath (AuroraStack.environment props) param
                  = "/eduka3d/" +:+ AuroraStack.environment props +:+ "/" +:+ variable
               /\ Iam.resourceMatches
                    (createParameterStorePolicy (AuroraStack.environment props)
                       region accountId)
                    (Iam.parameterArn region accountId
                       ("/eduka3d/" +:+ AuroraStack.environment props +:+ "/" +:+ variable))
                  = true).
  { intros variable Hin Hbare. eexists. split; [exact Hin|].
    split; [reflexivity|split; [|apply namespaced_name_is_matched]].
    unfold resolvedParameterPath. simpl. by rewrite Hbare. }
  unfold AuroraStack.parameters.
  repeat (apply Forall_cons; split); [..|apply Forall_nil_2]; simpl.
  - apply (Hread "DATABASE_HOST"); [|reflexivity].
    unfold DEFAULT_PARAMETERS.
    by repeat first [apply list_elem_of_here|apply list_elem_of_further].
  - apply (Hread "DATABASE_PORT"); [|reflexivity].
    unfold DEFAULT_PARAMETERS.
    by repeat first [apply list_elem_of_here|apply list_elem_of_further].
  - apply (Hread "DATABASE_NAME"); [|reflexivity].
    unfold DEFAULT_PARAMETERS.
    by repeat first [apply list_elem_of_here|apply list_elem_of_further].
  - apply (Hread "DATABASE_USER"); [|reflexivity].
    unfold DEFAULT_PARAMETERS.
    by repeat first [apply list_elem_of_here|apply list_elem_of_further].
Qed.

(** X10.  For every environment name, the export names of the six outputs
    of the Aurora stack and of the two outputs of the S3 stack are eight
    different names. *)
Theorem export_names_are_distinct
    {Number : Type} (props : AuroraStack.Props Number)
    (hostname secretArn securityGroupId bucketNameToken domainName : string) :
  NoDup (exportNames (AuroraStack.outputs props hostname secretArn securityGroupId)
           ++ exportNames (S3Stack.outputs (AuroraStack.environment props)
                             bucketNameToken domainName))
  /\ length (exportNames (AuroraStack.outputs props hostname secretArn securityGroupId)
               ++ exportNames (S3Stack.outputs (AuroraStack.environment props)
                                 bucketNameToken domainName))
     = 8.
Proof.
  split; [|reflexivity].
  unfold exportNames, AuroraStack.outputs, S3Stack.outputs. simpl.
  all_different.
Qed.

(** X11.  For every environment name, the ids of the constructs under the
    S3 stack, among them the id of the distribution, which contains the
    environment name, are different from one another. *)
Theorem s3_construct_ids_are_distinct (env : string) :
  NoDup (s3ScopeIds env).
Proof.
  unfold s3ScopeIds, S3Stack.constructIds, S3Stack.distributionId. simpl.
  all_different.
Qed.

(** ** Defaults and switches *)

(** X12.  The stacks that the program creates never get an empty database
    name or user name: a variable that is not set and a variable set to the
    empty string both give the default, and any other value is taken as it
    is.  The name and the user given to the cluster are the values written
    to the parameters [DATABASE_NAME] and [DATABASE_USER]. *)
Theorem database_identity_is_never_empty
    {Number : Type} (literal : Z -> Number) (parseInt : string -> Number)
    (processEnv : gmap string string) (hostname : string) :
  let props := App.auroraProps parseInt processEnv in
  let made := AuroraStack.cluster literal props in
  AuroraStack.defaultDatabaseName made <> ""
  /\ AuroraStack.credentialsUsername made <> ""
  /\ AuroraStack.defaultDatabaseName made
     = match processEnv !! "DATABASE_NAME" with
       | Some (String c s) => String c s
       | _ => "eduka3ddb"
       end
  /\ AuroraStack.credentialsUsername made
     = match processEnv !! "DATABASE_USERNAME" with
       | Some (String c s) => String c s
       | _ => "admin"
       end
  /\ {| AuroraStack.id := "DatabaseNameParameter";
        AuroraStack.parameterName :=
          "/eduka3d/" +:+ App.environment processEnv +:+ "/DATABASE_NAME";
        AuroraStack.stringValue := AuroraStack.defaultDatabaseName made |}
     ∈ AuroraStack.parameters props hostname
  /\ {| AuroraStack.id := "DatabaseUserParameter";
        AuroraStack.parameterName :=
          "/eduka3d/" +:+ App.environment processEnv +:+ "/DATABASE_USER";
        AuroraStack.stringValue := AuroraStack.credentialsUsername made |}
     ∈ AuroraStack.parameters props hostname.
Proof.
  cbv zeta.
  unfold AuroraStack.cluster, AuroraStack.theDatabaseName,
    AuroraStack.theDatabaseUsername, App.auroraProps, AuroraStack.parameters. simpl.
  split; [|split; [|split; [|split; [|split]]]].
  - by destruct (processEnv !! "DATABASE_NAME") as [[|c s]|].
  - by destruct (processEnv !! "DATABASE_USERNAME") as [[|c s]|].
  - by destruct (processEnv !! "DATABASE_NAME") as [[|c s]|].
  - by destruct (processEnv !! "DATABASE_USERNAME") as [[|c s]|].
  - do 2 apply list_elem_of_further. apply list_elem_of_here.
  - do 3 apply list_elem_of_further. apply list_elem_of_here.
Qed.


(** X14.  In the stacks the program creates from one [process.env], the
    safeguards of production go together, and they are on exactly when
    [ENV] is set to [prod], letter for letter: the bucket is retained and
    not emptied on deletion, the cluster is protected from deletion,
    snapshotted on removal and encrypted, and [DEBUG] is [False].  The
    bucket is emptied on deletion only when its removal policy is
    [DESTROY]. *)
Theorem production_safeguards_go_together
    {Number DbSecret : Type} (literal : Z -> Number) (parseInt : string -> Number)
    (processEnv : gmap string string)
    (bucketName cdnDomainName region : string) (dbSecret : DbSecret) :
  let bucket := S3Stack.bucket (App.environment processEnv) in
  let made := AuroraStack.cluster literal (App.auroraProps parseInt processEnv) in
  let container :=
    EcsStack.containerEnvironment
      (App.ecsProps processEnv bucketName cdnDomainName dbSecret) region in
  (S3Stack.autoDeleteObjects bucket = true <-> S3Stack.removalPolicy bucket = DESTROY)
  /\ (S3Stack.removalPolicy bucket = RETAIN <-> processEnv !! "ENV" = Some "prod")
  /\ (AuroraStack.deletionProtection made = true <-> processEnv !! "ENV" = Some "prod")
  /\ (AuroraStack.removalPolicy made = SNAPSHOT <-> processEnv !! "ENV" = Some "prod")
  /\ (AuroraStack.storageEncrypted made = true <-> processEnv !! "ENV" = Some "prod")
  /\ (container !! 0 = Some ("DEBUG", "False") <-> processEnv !! "ENV" = Some "prod")
  /\ (container !! 0 = Some ("DEBUG", "True") <-> processEnv !! "ENV" <> Some "prod").
Proof.
  cbv zeta.
  unfold S3Stack.bucket, AuroraStack.cluster, EcsStack.containerEnvironment,
    App.auroraProps, App.ecsProps, App.environment, nullish. simpl.
  destruct (processEnv !! "ENV") as [env|] eqn:Henv; simpl.
  - destruct (String.eqb_spec env "prod") as [->|Hne]; simpl.
    + repeat split; intros; congruence.
    + assert (Some env <> Some "prod") by congruence.
      repeat split; intros; congruence.
  - repeat split; intros; congruence.
Qed.

(** ** The tags of the subnets *)




(** ** The setup script *)

Module ScriptFacts.
Import SetupScript.
#[local] Arguments Ascii.eqb : simpl never.

Lemma includes_equals_cons (c : ascii) (s : string) :
  Str.includes (String c s) "=" = Ascii.eqb c "=" || Str.includes s "=".
Proof.
  change (Str.includes (String c s) "=")
    with (Ascii.eqb "=" c && true || Str.includes s "=").
  by rewrite andb_true_r, Ascii.eqb_sym.
Qed.

Lemma split_of_joined (key value : string) :
  Str.includes key "=" = false ->
  beforeEquals (key +:+ "=" +:+ value) = key
  /\ afterFirstEquals (key +:+ "=" +:+ value) = Some value.
Proof.
  induction key as [|c key IH]; intros Hkey.
  - by split.
  - rewrite includes_equals_cons in Hkey.
    apply orb_false_iff in Hkey as [Hc Hkey].
    rewrite StrFacts.append_String. simpl. rewrite Hc.
    destruct (IH Hkey) as [-> ->]. by split.
Qed.

Lemma split_without_equals (line : string) :
  Str.includes line "=" = false ->
  beforeEquals line = line /\ afterFirstEquals line = None.
Proof.
  induction line as [|c line IH]; intros Hline.
  - by split.
  - rewrite includes_equals_cons in Hline.
    apply orb_false_iff in Hline as [Hc Hline].
    simpl. rewrite Hc. destruct (IH Hline) as [-> ->]. by split.
Qed.

Lemma split_with_equals (line : string) :
  Str.includes line "=" = true ->
  exists value,
    afterFirstEquals line = Some value
    /\ line = beforeEquals line +:+ "=" +:+ value.
Proof.
  induction line as [|c line IH]; intros Hline.
  - discriminate.
  - rewrite includes_equals_cons in Hline. simpl.
    destruct (Ascii.eqb_spec c "=") as [->|Hc].
    + exists line. by split.
    + simpl in Hline. destruct (IH Hline) as (value & -> & Heq).
      exists value. split; [reflexivity|].
      rewrite StrFacts.append_String. by rewrite <- Heq.
Qed.

Lemma key_has_no_equals (line : string) :
  Str.includes (beforeEquals line) "=" = false.
Proof.
  induction line as [|c line IH]; [reflexivity|].
  simpl. destruct (Ascii.eqb c "=") eqn:Hc; [reflexivity|].
  rewrite includes_equals_cons, Hc. exact IH.
Qed.

End ScriptFacts.

(** X15.  The script splits a line at its first [=].  The key has no [=];
    a line with a [=] is its key, a [=] and its value, and a key without
    [=] joined to any value by a [=] is split into that key and that value.
    A line without [=] is its own key and its own value. *)
Theorem line_is_split_at_the_first_equals (line : string) :
  Str.includes (SetupScript.beforeEquals line) "=" = false
  /\ (Str.includes line "=" = true ->
      line = SetupScript.beforeEquals line +:+ "=" +:+ SetupScript.afterEquals line)
  /\ (Str.includes line "=" = false ->
      SetupScript.beforeEquals line = line /\ SetupScript.afterEquals line = line)
  /\ (forall key value : string,
        Str.includes key "=" = false ->
        SetupScript.beforeEquals (key +:+ "=" +:+ value) = key
        /\ SetupScript.afterEquals (key +:+ "=" +:+ value) = value).
Proof.
  split; [apply ScriptFacts.key_has_no_equals|split; [|split]].
  - intros Hline.
    destruct (ScriptFacts.split_with_equals line Hline) as (value & Hvalue & Heq).
    unfold SetupScript.afterEquals. by rewrite Hvalue.
  - intros Hline.
    destruct (ScriptFacts.split_without_equals line Hline) as [Hkey Hvalue].
    unfold SetupScript.afterEquals. by rewrite Hvalue.
  - intros key value Hkey.
    destruct (ScriptFacts.split_of_joined key value Hkey) as [Hbefore Hafter].
    unfold SetupScript.afterEquals. by rewrite Hafter.
Qed.


(** X15 at two lines. *)
Lemma line_is_split_at_the_first_equals_witness :
  (SetupScript.beforeEquals "DATABASE_URL=mysql://db/app?charset=utf8" = "DATABASE_URL"
   /\ SetupScript.afterEquals "DATABASE_URL=mysql://db/app?charset=utf8"
      = "mysql://db/app?charset=utf8")
  /\ (SetupScript.beforeEquals "DEBUG" = "DEBUG" /\ SetupScript.afterEquals "DEBUG" = "DEBUG").
Proof.
  split.
  - apply (proj2 (proj2 (proj2 (line_is_split_at_the_first_equals "")))
             "DATABASE_URL" "mysql://db/app?charset=utf8").
    reflexivity.
  - apply (proj1 (proj2 (proj2 (line_is_split_at_the_first_equals "DEBUG")))).
    reflexivity.
Defined.


(** The script stores every key but the empty one with the type [String]. *)
Lemma stored_type_is_String
    (xargs : string -> string) (ENVIRONMENT line name value type : string) :
  SetupScript.processLine xargs ENVIRONMENT line
  = SetupScript.PutParameter name value type ->
  xargs (SetupScript.beforeEquals line) <> "" ->
  type = "String".
Proof.
  unfold SetupScript.processLine.
  destruct (String.eqb line "" || Str.startsWith line "#"); [discriminate|].
  destruct (String.eqb (SetupScript.afterEquals line) ""
            || Str.includes (SetupScript.afterEquals line) "your-"
            || Str.includes (SetupScript.afterEquals line) "YOUR_"
            || Str.includes (SetupScript.afterEquals line) "example"); [discriminate|].
  intros [= <- <- <-] Hkey.
  unfold SetupScript.is_secure_param, SetupScript.SECURE_PARAMS. simpl.
  by apply String.eqb_neq in Hkey as ->.
Qed.

(** X18.  A parameter that the setup script has stored under a key that is
    not empty never passes the type check of the validation script for
    [SecureString], if the store reports the type it was given: the setup
    script stores it as [String]. *)
Theorem stored_parameter_fails_the_secure_check
    (xargs : string -> string) (getType : string -> option string)
    (ENVIRONMENT line name value type param_name : string) :
  SetupScript.processLine xargs ENVIRONMENT line
  = SetupScript.PutParameter name value type ->
  xargs (SetupScript.beforeEquals line) <> "" ->
  name = "/eduka3d/" +:+ ENVIRONMENT +:+ "/" +:+ param_name ->
  getType name = Some type ->
  ValidateScript.check_parameter_type getType ENVIRONMENT param_name "SecureString"
  = false
  /\ ValidateScript.check_parameter_type getType ENVIRONMENT param_name "String"
     = true.
Proof.
  intros Hput Hkey -> Hstore.
  rewrite (stored_type_is_String _ _ _ _ _ _ Hput Hkey) in Hstore.
  unfold ValidateScript.check_parameter_type. rewrite Hstore. by split.
Qed.

(** X18 at the line of the secret key of Django. *)
Lemma stored_parameter_fails_the_secure_check_witness :
  ValidateScript.check_parameter_type
    (fun name => if String.eqb name "/eduka3d/dev/DJANGO_SECRET_KEY"
                 then Some "String" else None)
    "dev" "DJANGO_SECRET_KEY" "SecureString"
  = false
  /\ ValidateScript.check_parameter_type
       (fun name => if String.eqb name "/eduka3d/dev/DJANGO_SECRET_KEY"
                    then Some "String" else None)
       "dev" "DJANGO_SECRET_KEY" "String"
     = true.
Proof.
  apply (stored_parameter_fails_the_secure_check (fun key => key)
           (fun name => if String.eqb name "/eduka3d/dev/DJANGO_SECRET_KEY"
                        then Some "String" else None)
           "dev" "DJANGO_SECRET_KEY=s3cr3t-k3y" "/eduka3d/dev/DJANGO_SECRET_KEY"
           "s3cr3t-k3y" "String" "DJANGO_SECRET_KEY" eq_refl).
  - discriminate.
  - reflexivity.
  - reflexivity.
Defined.

